(** * GraphSentinel: threat intake pipeline (src/main.py)

    A shallow embedding of the request handlers of [src/main.py] and of the
    helpers they call, followed by the properties of the pipeline.

    Conventions of the embedding.
    - Python [str] is [string] (a sequence of UTF-8 bytes), [bytes] is
      [list Byte.byte], [int] is [Z], a [dict] with string keys is a
      [gmap string _], a [list] is a [list].
    - The module-level configuration ([ELEVENLABS_KEY], [ELEVENLABS_VOICE]) is
      read once at import time; it is a [config] record passed to the
      handlers.
    - The process-wide mutable objects ([threat_log], [app.state.__dict__])
      are the fields of a [World] record threaded through a state monad; an
      uncaught Python exception is the [Raised] outcome of that monad, which
      keeps the world as it was when the exception was raised.
    - What a handler reads from outside the process (the two clock readings
      and the answer of the synthesis service) is a [call_env] argument.
    - Each handler body runs without interleaving with another request. *)

From Stdlib Require Import ZArith Lia QArith.
From Stdlib Require Import Ascii String DecimalString.
From stdpp Require Import base option list strings gmap.

Local Open Scope string_scope.
Local Open Scope list_scope.
Local Open Scope Z_scope.

(** ** Python values and formatting *)

Module Py.

(** Scalar values a JSON body can put under a key of [details] (strings,
    integers, booleans, null); floats and nested containers are left out. *)
Inductive value : Type :=
| VStr (s : string)
| VInt (z : Z)
| VBool (b : bool)
| VNone.

(** [str(v)] / [format(v, "")], what an f-string replacement field prints. *)
Definition str (v : value) : string :=
  match v with
  | VStr s => s
  | VInt z => NilZero.string_of_int (Z.to_int z)
  | VBool true => "True"
  | VBool false => "False"
  | VNone => "None"
  end.

(** [d.get(key, default)] *)
Definition get {V} (d : gmap string V) (key : string) (default : V) : V :=
  match d !! key with
  | Some v => v
  | None => default
  end.

(** [bool(b)] for a [bytes] object, and for a [str]. *)
Definition truthy_bytes (b : list Byte.byte) : bool :=
  match b with [] => false | _ :: _ => true end.

Definition truthy_str (s : string) : bool :=
  match s with EmptyString => false | String _ _ => true end.

(** [l[i:]] for any integer [i], negative indices counting from the end. *)
Definition slice_from {A} (i : Z) (l : list A) : list A :=
  let n := Z.of_nat (length l) in
  let start := if i <? 0 then Z.max (n + i) 0 else Z.min i n in
  drop (Z.to_nat start) l.

(** One decimal digit as a character. *)
Definition digit_char (d : Z) : ascii := ascii_of_N (Z.to_N (48 + d)).

(** The [w] low-order decimal digits of [n], most significant first: the
    zero-padded fields of [strftime]. *)
Fixpoint digits (w : nat) (n : Z) : string :=
  match w with
  | O => ""
  | S w' => String (digit_char (n / 10 ^ Z.of_nat w' mod 10)) (digits w' n)
  end.

(** [datetime.datetime], naive or UTC. *)
Record datetime : Type := {
  year : Z; month : Z; day : Z;
  hour : Z; minute : Z; second : Z; microsecond : Z
}.

Definition is_leap (y : Z) : bool :=
  (y mod 4 =? 0) && (negb (y mod 100 =? 0) || (y mod 400 =? 0)).

Definition days_in_month (y m : Z) : Z :=
  if m =? 2 then (if is_leap y then 29 else 28)
  else if (m =? 4) || (m =? 6) || (m =? 9) || (m =? 11) then 30
  else 31.

(** The range checks of the [datetime] constructor. *)
Definition valid (d : datetime) : Prop :=
  1 <= year d <= 9999 /\ 1 <= month d <= 12 /\
  1 <= day d <= days_in_month (year d) (month d) /\
  0 <= hour d <= 23 /\ 0 <= minute d <= 59 /\ 0 <= second d <= 59 /\
  0 <= microsecond d <= 999999.

(** [d.strftime('%Y%m%d%H%M%S')]: every field zero-padded to its width, the
    year to four digits as the Python documentation gives it. *)
Definition strftime_YmdHMS (d : datetime) : string :=
  digits 4 (year d) +:+ digits 2 (month d) +:+ digits 2 (day d) +:+
  digits 2 (hour d) +:+ digits 2 (minute d) +:+ digits 2 (second d).

(** [d.isoformat()] for a datetime made with [tz=timezone.utc]. *)
Definition isoformat_utc (d : datetime) : string :=
  digits 4 (year d) +:+ "-" +:+ digits 2 (month d) +:+ "-" +:+
  digits 2 (day d) +:+ "T" +:+ digits 2 (hour d) +:+ ":" +:+
  digits 2 (minute d) +:+ ":" +:+ digits 2 (second d) +:+
  (if microsecond d =? 0 then "" else "." +:+ digits 6 (microsecond d)) +:+
  "+00:00".

(** Days before year [y], before month [m] of year [y], and the proleptic
    Gregorian ordinal of a date: what [datetime] subtraction is defined on. *)
Definition days_before_year (y : Z) : Z :=
  let p := y - 1 in p * 365 + p / 4 - p / 100 + p / 400.

Fixpoint days_before_month_aux (y : Z) (k : nat) : Z :=
  match k with
  | O => 0
  | S k' => days_before_month_aux y k' + days_in_month y (Z.of_nat k)
  end.

Definition days_before_month (y m : Z) : Z :=
  days_before_month_aux y (Z.to_nat (m - 1)).

Definition toordinal (d : datetime) : Z :=
  days_before_year (year d) + days_before_month (year d) (month d) + day d.

(** Whole seconds, and microseconds, since 0001-01-01T00:00:00; the
    difference [d1 - d2] of two datetimes is the difference of these. *)
Definition to_seconds (d : datetime) : Z :=
  ((toordinal d - 1) * 24 + hour d) * 3600 + minute d * 60 + second d.

Definition to_microseconds (d : datetime) : Z :=
  to_seconds d * 1000000 + microsecond d.

End Py.

(** ** Configuration and in-memory state *)

Record config : Type := {
  ELEVENLABS_KEY : string;
  ELEVENLABS_VOICE : string
}.

(** ** Data model *)

(** [class ThreatAlert(BaseModel)] *)
Record ThreatAlert : Type := {
  source : string;
  alert_type : string;
  severity : string;
  details : gmap string Py.value
}.

(** The field defaults of [ThreatAlert]. *)
Definition ThreatAlert_default : ThreatAlert :=
  {| source := "Defender"; alert_type := "BruteForce";
     severity := "High"; details := ∅ |}.

(** [class AdaAnalysis(BaseModel)] *)
Record AdaAnalysis : Type := {
  threat_id : string;
  summary : string;
  reasoning : list string;
  risk_score : Z;
  recommended_actions : list string;
  auto_remediated : bool;
  voice_message : option string
}.

(** ** The classifier *)

Definition make_threat_id (now : Py.datetime) : string :=
  "THR-" +:+ Py.strftime_YmdHMS now.

Definition make_reasoning (alert : ThreatAlert) : list string :=
  [ "🔍 Detected " +:+ alert_type alert +:+ " from " +:+ source alert;
    "📊 Analyzing patterns... " +:+
      Py.str (Py.get (details alert) "attempts" (Py.VStr "multiple")) +:+
      " attempts detected";
    "🌍 GeoIP lookup: Origins from " +:+
      Py.str (Py.get (details alert) "origins" (Py.VStr "unknown regions"));
    "🧠 Correlating with knowledge graph...";
    "⚡ Risk assessment: " +:+ severity alert +:+ " severity confirmed";
    "🛡️ Checking available remediation options..." ].

Definition BruteForce_actions : list string :=
  [ "Block source IPs in Conditional Access";
    "Enable MFA enforcement for targeted accounts";
    "Increase sign-in risk policy to High";
    "Notify security team via voice alert" ].

Definition ImpossibleTravel_actions : list string :=
  [ "Require re-authentication";
    "Enable location-based Conditional Access";
    "Flag session for review" ].

Definition MalwareDetected_actions : list string :=
  [ "Isolate affected device";
    "Revoke active sessions";
    "Trigger Defender scan";
    "Alert SOC team" ].

Definition select_actions (category : string) : list string :=
  if String.eqb category "BruteForce" then BruteForce_actions
  else if String.eqb category "ImpossibleTravel" then ImpossibleTravel_actions
  else if String.eqb category "MalwareDetected" then MalwareDetected_actions
  else [].

(** [ada_analyze_threat(alert)]; [now] is the value of [datetime.now()]. *)
Definition ada_analyze_threat (now : Py.datetime) (alert : ThreatAlert)
  : AdaAnalysis :=
  {| threat_id := make_threat_id now;
     summary := alert_type alert +:+ " attack detected - Auto-remediation initiated";
     reasoning := make_reasoning alert;
     risk_score := if String.eqb (severity alert) "High" then 85 else 60;
     recommended_actions := select_actions (alert_type alert);
     auto_remediated := true;
     voice_message := None |}.

(** ** The world of a running process *)

Abbreviation bytes := (list Byte.byte).

(** One entry of [threat_log]: the dict built by [process_threat]. *)
Record IncidentRecord : Type := {
  r_timestamp : string;
  r_alert : ThreatAlert;
  r_analysis : AdaAnalysis
}.

(** The keyword arguments of the single [client.post] call. *)
Record post_request : Type := {
  url : string;
  headers : list (string * string);
  json_text : string;
  json_model_id : string;
  json_stability : Q;
  json_similarity_boost : Q;
  timeout : Q
}.

(** What [await client.post(...)] can do: hand back a response, or raise
    one of httpx's transport exceptions. *)
Inductive http_outcome : Type :=
| Responded (status_code : Z) (content : bytes)
| NetworkError
| TimedOut.

Inductive exn : Type :=
| httpx_NetworkError
| httpx_TimeoutException.

(** The effectful statements of the handlers, in the order they ran. *)
Inductive effect : Type :=
| LogAppend (r : IncidentRecord)
| HttpPost (req : post_request)
| PutAudio (id : string) (blob : bytes).

Record World : Type := {
  threat_log : list IncidentRecord;
  app_state : gmap string bytes;
  trace : list effect
}.

(** The state of a freshly started process: [threat_log = []], nothing set
    on [app.state]. (The [_state] entry Starlette keeps in
    [app.state.__dict__] is left out: no key built by the handlers, all of
    the form [voice_...], can be equal to it.) *)
Definition initial_world : World :=
  {| threat_log := []; app_state := ∅; trace := [] |}.

(** What the handler reads from outside during one request. *)
Record call_env : Type := {
  now : Py.datetime;
  utcnow : Py.datetime;
  post : post_request -> http_outcome
}.

(** ** A state monad with exceptions *)

Inductive outcome (A : Type) : Type :=
| Returned (a : A)
| Raised (e : exn).
Arguments Returned {A} a.
Arguments Raised {A} e.

Definition M (A : Type) : Type := World -> outcome A * World.

#[global] Instance M_ret : MRet M := fun A a w => (Returned a, w).

#[global] Instance M_bind : MBind M := fun A B k m w =>
  match m w with
  | (Returned a, w') => k a w'
  | (Raised e, w') => (Raised e, w')
  end.

Definition raise {A} (e : exn) : M A := fun w => (Raised e, w).

Definition emit (e : effect) (w : World) : World :=
  {| threat_log := threat_log w; app_state := app_state w;
     trace := trace w ++ [e] |}.

(** [threat_log.append(r)] *)
Definition log_append (r : IncidentRecord) : M unit := fun w =>
  (Returned tt,
   emit (LogAppend r)
     {| threat_log := threat_log w ++ [r]; app_state := app_state w;
        trace := trace w |}).

(** [app.state.__dict__[f"voice_{id}"] = blob] *)
Definition voice_key (id : string) : string := "voice_" +:+ id.

Definition put_audio (id : string) (blob : bytes) : M unit := fun w =>
  (Returned tt,
   emit (PutAudio id blob)
     {| threat_log := threat_log w;
        app_state := <[voice_key id := blob]> (app_state w);
        trace := trace w |}).

(** [app.state.__dict__.get(f"voice_{id}")] *)
Definition lookup_audio (id : string) : M (option bytes) := fun w =>
  (Returned (app_state w !! voice_key id), w).

(** [await client.post(...)] inside [async with httpx.AsyncClient()]. *)
Definition client_post (ce : call_env) (req : post_request)
  : M (Z * bytes) := fun w =>
  let w' := emit (HttpPost req) w in
  match post ce req with
  | Responded status body => (Returned (status, body), w')
  | NetworkError => raise httpx_NetworkError w'
  | TimedOut => raise httpx_TimeoutException w'
  end.

(** ** The voice synthesis adapter *)

Definition LF : string := String (ascii_of_nat 10) "".

Definition voice_script (analysis : AdaAnalysis) (alert : ThreatAlert)
  : string :=
  let origins := Py.get (details alert) "origins" (Py.VStr "mehreren Regionen") in
  let attempts := Py.get (details alert) "attempts" (Py.VStr "tausende") in
  LF +:+
  "    Hi, hier ist Ada vom Security Operations Center." +:+ LF +:+
  "    " +:+ LF +:+
  "    Kurzes Update: In den letzten Stunden gab es " +:+ Py.str attempts +:+
    " Login-Versuche " +:+ LF +:+
  "    aus " +:+ Py.str origins +:+ "." +:+ LF +:+
  "    " +:+ LF +:+
  "    Ich habe mir erlaubt, die Conditional Access Policy vorübergehend zu verschärfen " +:+ LF +:+
  "    und MFA auf allen Admin-Accounts zu erzwingen." +:+ LF +:+
  "    " +:+ LF +:+
  "    Der betroffene Kollege ohne MFA wurde automatisch geschützt - " +:+ LF +:+
  "    er kann sich Montag bei mir bedanken." +:+ LF +:+
  "    " +:+ LF +:+
  "    Threat ID ist " +:+ threat_id analysis +:+ ". Details im Dashboard." +:+ LF +:+
  "    " +:+ LF +:+
  "    Schönes Wochenende!" +:+ LF +:+
  "    ".

Definition voice_request (cfg : config) (message : string) : post_request :=
  {| url := "https://api.elevenlabs.io/v1/text-to-speech/" +:+ ELEVENLABS_VOICE cfg;
     headers := [ ("xi-api-key", ELEVENLABS_KEY cfg);
                  ("Content-Type", "application/json") ];
     json_text := message;
     json_model_id := "eleven_multilingual_v2";
     json_stability := 1 # 2;
     json_similarity_boost := 3 # 4;
     timeout := 30 # 1 |}.

(** [generate_voice_alert(analysis, alert)] *)
Definition generate_voice_alert (cfg : config) (ce : call_env)
    (analysis : AdaAnalysis) (alert : ThreatAlert) : M bytes :=
  let message := voice_script analysis alert in
  if negb (Py.truthy_str (ELEVENLABS_KEY cfg)) then mret []
  else
    resp ← client_post ce (voice_request cfg message);
    if fst resp =? 200 then mret (snd resp) else mret [].

(** ** The request handlers *)

(** The dict [process_threat] returns: the analysis fields and [voice_url]. *)
Record ThreatResponse : Type := {
  resp_analysis : AdaAnalysis;
  voice_url : option string
}.

(** The dict appended to [threat_log]. *)
Definition incident_record (ce : call_env) (alert : ThreatAlert)
    (analysis : AdaAnalysis) : IncidentRecord :=
  {| r_timestamp := Py.isoformat_utc (utcnow ce);
     r_alert := alert; r_analysis := analysis |}.

(** [POST /api/threat]. The [background_tasks] parameter is never used. *)
Definition process_threat (cfg : config) (ce : call_env)
    (alert : ThreatAlert) : M ThreatResponse :=
  let analysis := ada_analyze_threat (now ce) alert in
  log_append (incident_record ce alert analysis) ;;
  voice_url ←
    (if Py.truthy_str (ELEVENLABS_KEY cfg) then
       audio_bytes ← generate_voice_alert cfg ce analysis alert;
       if Py.truthy_bytes audio_bytes then
         put_audio (threat_id analysis) audio_bytes ;;
         mret (Some ("/api/voice/" +:+ threat_id analysis))
       else mret None
     else mret None);
  mret {| resp_analysis := analysis; voice_url := voice_url |}.

(** The two replies of [GET /api/voice/{threat_id}]:
    [JSONResponse(body, status_code)] and [Response(content, media_type)]
    (whose status is 200). *)
Inductive http_reply : Type :=
| JSONResponse (body : list (string * string)) (status_code : Z)
| Response (content : bytes) (media_type : string).

Definition reply_status (r : http_reply) : Z :=
  match r with
  | JSONResponse _ code => code
  | Response _ _ => 200
  end.

Definition voice_not_found : http_reply :=
  JSONResponse [("error", "Voice not found")] 404.

(** [GET /api/voice/{threat_id}]. [dict.get] gives [None] for a missing key;
    [not audio_bytes] holds for [None] and for the empty bytes object. *)
Definition get_voice_alert (threat_id : string) : M http_reply :=
  audio_bytes ← lookup_audio threat_id;
  match audio_bytes with
  | None => mret voice_not_found
  | Some b =>
      if negb (Py.truthy_bytes b) then mret voice_not_found
      else mret (Response b "audio/mpeg")
  end.

(** [GET /api/threats]: the value under ["threats"]. *)
Definition get_threats : M (list IncidentRecord) := fun w =>
  (Returned (Py.slice_from (-50) (threat_log w)), w).

(** ** Sequences of requests *)

Inductive request : Type :=
| PostThreat (ce : call_env) (alert : ThreatAlert)
| GetVoice (threat_id : string)
| GetThreats.

(** The world after serving one request, whatever its outcome. *)
Definition serve (cfg : config) (rq : request) (w : World) : World :=
  match rq with
  | PostThreat ce alert => snd (process_threat cfg ce alert w)
  | GetVoice id => snd (get_voice_alert id w)
  | GetThreats => snd (get_threats w)
  end.

Definition serve_all (cfg : config) (rqs : list request) (w : World) : World :=
  foldl (fun w rq => serve cfg rq w) w rqs.

(** ** Vocabulary of the properties *)

(** The number a digit character stands for. *)
Definition digit_value (c : ascii) : Z := Z.of_N (N_of_ascii c) - 48.

(** Two clock readings agree down to the second. *)
Definition same_second (d1 d2 : Py.datetime) : Prop :=
  Py.year d1 = Py.year d2 /\ Py.month d1 = Py.month d2 /\
  Py.day d1 = Py.day d2 /\ Py.hour d1 = Py.hour d2 /\
  Py.minute d1 = Py.minute d2 /\ Py.second d1 = Py.second d2.

(** The world after a sequence of [threat_log.append] calls. *)
Definition append_all (rs : list IncidentRecord) (w : World) : World :=
  foldl (fun w r => snd (log_append r w)) w rs.

(** The world right after the logging step of [process_threat]. *)
Definition logged (ce : call_env) (alert : ThreatAlert) (w : World) : World :=
  snd (log_append
         (incident_record ce alert (ada_analyze_threat (now ce) alert)) w).

(** The record a request adds to the log, if it adds one. *)
Definition logged_by (rq : request) : list IncidentRecord :=
  match rq with
  | PostThreat ce alert =>
      [incident_record ce alert (ada_analyze_threat (now ce) alert)]
  | GetVoice _ | GetThreats => []
  end.

(** The [k] last elements of [l], in the order of [l]. *)
Definition most_recent {A} (k : nat) (l : list A) : list A :=
  drop (length l - k) l.

Definition is_post (e : effect) : bool :=
  match e with HttpPost _ => true | _ => false end.

Definition is_log_append (e : effect) : bool :=
  match e with LogAppend _ => true | _ => false end.

(** Every blob found under a voice key was put there by a [PutAudio]. *)
Definition audio_traced (w : World) : Prop :=
  forall id blob,
    app_state w !! voice_key id = Some blob -> PutAudio id blob ∈ trace w.

(** No key of [app.state] holds the empty bytes object. *)
Definition no_empty_audio (w : World) : Prop :=
  forall key, app_state w !! key <> Some [].

(** The call to the service did not hand back a response. *)
Definition failed_call (o : http_outcome) : option exn :=
  match o with
  | Responded _ _ => None
  | NetworkError => Some httpx_NetworkError
  | TimedOut => Some httpx_TimeoutException
  end.

(** ** Sample runs *)

Module Samples.

Definition t0 : Py.datetime :=
  {| Py.year := 2024; Py.month := 3; Py.day := 9;
     Py.hour := 7; Py.minute := 5; Py.second := 42; Py.microsecond := 0 |}.

Definition t1 : Py.datetime :=
  {| Py.year := 2024; Py.month := 3; Py.day := 9;
     Py.hour := 7; Py.minute := 5; Py.second := 43; Py.microsecond := 250 |}.

Definition no_key : config :=
  {| ELEVENLABS_KEY := ""; ELEVENLABS_VOICE := "21m00Tcm4TlvDq8ikWAM" |}.

Definition with_key : config :=
  {| ELEVENLABS_KEY := "sk-test"; ELEVENLABS_VOICE := "21m00Tcm4TlvDq8ikWAM" |}.

Definition mp3 : bytes := [Byte.x49; Byte.x44; Byte.x33].

Definition net_ok : post_request -> http_outcome := fun _ => Responded 200 mp3.
Definition net_503 : post_request -> http_outcome := fun _ => Responded 503 [].
Definition net_down : post_request -> http_outcome := fun _ => NetworkError.
Definition net_slow : post_request -> http_outcome := fun _ => TimedOut.

Definition at_ (t : Py.datetime) (net : post_request -> http_outcome) : call_env :=
  {| now := t; utcnow := t; post := net |}.

Definition port_scan : ThreatAlert :=
  {| source := "Sentinel"; alert_type := "PortScan"; severity := "Critical";
     details := {[ "attempts" := Py.VInt 1200 ]} |}.

(** Sixty alerts, one per second from [t0] on. *)
Definition tick (n : nat) : Py.datetime :=
  {| Py.year := 2024; Py.month := 3; Py.day := 9; Py.hour := 8;
     Py.minute := Z.of_nat n / 60; Py.second := Z.of_nat n mod 60;
     Py.microsecond := 0 |}.

Definition burst (n : nat) : list request :=
  (fun k => PostThreat (at_ (tick k) net_ok) ThreatAlert_default) <$> seq 0 n.

Definition sixty_records : list IncidentRecord := flat_map logged_by (burst 60).

(** A world in which the empty bytes object sits under a voice key. *)
Definition silent_world : World :=
  {| threat_log := [];
     app_state := {[ voice_key "THR-20240309070542" := [] ]};
     trace := [PutAudio "THR-20240309070542" []] |}.

End Samples.

(** ** The health endpoint *)

Module Health.

(** The dict [health] returns. *)
Record response : Type := {
  status : string;
  service : string;
  ada_hive : string;
  voice_alerts : bool;
  timestamp : string
}.

End Health.

(** [GET /health]; [utcnow] is the value of [datetime.now(timezone.utc)]. *)
Definition health (cfg : config) (utcnow : Py.datetime) : M Health.response :=
  mret {| Health.status := "operational";
          Health.service := "GraphSentinel";
          Health.ada_hive := "online";
          Health.voice_alerts := Py.truthy_str (ELEVENLABS_KEY cfg);
          Health.timestamp := Py.isoformat_utc utcnow |}.

(** ** Vocabulary of the further properties *)

Definition posts_alert (rq : request) : bool :=
  match rq with PostThreat _ _ => true | _ => false end.

(** The posts to the synthesis service among some effects, in order. *)
Definition posts_of (tr : list effect) : list effect := List.filter is_post tr.

(** The retrieval handler serves a nonempty audio payload for [id]. *)
Definition has_audio (id : string) (w : World) : Prop :=
  exists blob,
    blob <> [] /\
    get_voice_alert id w = (Returned (Response blob "audio/mpeg"), w).



(** Two alerts that differ at most in detail keys the pipeline never reads. *)
Definition same_read_fields (a1 a2 : ThreatAlert) : Prop :=
  source a1 = source a2 /\ alert_type a1 = alert_type a2 /\
  severity a1 = severity a2 /\
  details a1 !! "attempts" = details a2 !! "attempts" /\
  details a1 !! "origins" = details a2 !! "origins".

Module MoreSamples.

Definition mp3_b : bytes := [Byte.xff; Byte.xfb].

Definition net_ok_b : post_request -> http_outcome := fun _ => Responded 200 mp3_b.

(** Half a second after [Samples.t0], within the same second. *)
Definition t0_late : Py.datetime :=
  {| Py.year := 2024; Py.month := 3; Py.day := 9;
     Py.hour := 7; Py.minute := 5; Py.second := 42; Py.microsecond := 500000 |}.

(** The alert the dashboard posts for an impossible travel. *)
Definition travel : ThreatAlert :=
  {| source := "Azure AD Identity Protection";
     alert_type := "ImpossibleTravel"; severity := "Medium";
     details := {[ "user" := Py.VStr "admin@contoso.com";
                   "locations" := Py.VStr "Frankfurt - Tokyo in 10 minutes";
                   "origins" := Py.VStr "Tokyo" ]} |}.

(** The same alert without the keys that are never read. *)
Definition travel_bare : ThreatAlert :=
  {| source := "Azure AD Identity Protection";
     alert_type := "ImpossibleTravel"; severity := "Medium";
     details := {[ "origins" := Py.VStr "Tokyo" ]} |}.

(** A process that stored audio for one incident. *)
Definition stored_world : World :=
  snd (process_threat Samples.with_key (Samples.at_ Samples.t0 Samples.net_ok)
         ThreatAlert_default initial_world).

End MoreSamples.

(** ** Formatting lemmas *)

Section Digits.

Lemma digit_value_char (d : Z) :
  0 <= d <= 9 -> digit_value (Py.digit_char d) = d.
Proof.
  intros Hd. unfold digit_value, Py.digit_char.
  rewrite N_ascii_embedding by lia. lia.
Qed.

Lemma digit_char_inj (a b : Z) :
  0 <= a <= 9 -> 0 <= b <= 9 -> Py.digit_char a = Py.digit_char b -> a = b.
Proof.
  intros Ha Hb Heq.
  rewrite <- (digit_value_char a Ha), <- (digit_value_char b Hb).
  now rewrite Heq.
Qed.


(** A zero-padded field is never empty. *)
Lemma digits_nonempty (w : nat) (n : Z) : Py.digits (S w) n <> "".
Proof. discriminate. Qed.

(** Fields of a fixed width can be read back from a concatenation. *)
Lemma digits_app_inv (w : nat) (a b : Z) (s t : string) :
  Py.digits w a +:+ s = Py.digits w b +:+ t ->
  Py.digits w a = Py.digits w b /\ s = t.
Proof.
  induction w as [|w IH]; simpl.
  - intros H. now split.
  - intros H. injection H as Hc Hrest.
    destruct (IH Hrest) as [Hd Hs]. split; [now rewrite Hc, Hd | exact Hs].
Qed.

(** The [w] digits determine the number modulo [10 ^ w]. *)
Lemma digits_mod (w : nat) (a b : Z) :
  Py.digits w a = Py.digits w b ->
  a mod 10 ^ Z.of_nat w = b mod 10 ^ Z.of_nat w.
Proof.
  induction w as [|w IH].
  - intros _. change (10 ^ Z.of_nat 0) with 1. now rewrite !Z.mod_1_r.
  - cbn [Py.digits]. intros H. injection H as Hc Hrest.
    apply digit_char_inj in Hc; try (apply Z.mod_pos_bound; lia).
    + specialize (IH Hrest).
      assert (Hp : 0 < 10 ^ Z.of_nat w) by (apply Z.pow_pos_nonneg; lia).
      rewrite Nat2Z.inj_succ, Z.pow_succ_r by lia.
      rewrite (Z.mul_comm 10).
      rewrite !Z.rem_mul_r by lia. now rewrite IH, Hc.
    + pose proof (Z.mod_pos_bound (a / 10 ^ Z.of_nat w) 10). lia.
    + pose proof (Z.mod_pos_bound (b / 10 ^ Z.of_nat w) 10). lia.
Qed.

Lemma digits_inj (w : nat) (a b : Z) :
  0 <= a < 10 ^ Z.of_nat w -> 0 <= b < 10 ^ Z.of_nat w ->
  Py.digits w a = Py.digits w b -> a = b.
Proof.
  intros Ha Hb H. apply digits_mod in H.
  now rewrite !Z.mod_small in H by assumption.
Qed.

End Digits.

Lemma prefix_cancel (p s t : string) : p +:+ s = p +:+ t -> s = t.
Proof.
  induction p as [|c p IH]; simpl; [tauto|].
  intros H. injection H as H. now apply IH.
Qed.

Section ThreatIds.

Lemma strftime_inj (d1 d2 : Py.datetime) :
  Py.valid d1 -> Py.valid d2 ->
  Py.strftime_YmdHMS d1 = Py.strftime_YmdHMS d2 -> same_second d1 d2.
Proof.
  intros (Hy1 & Hm1 & Hd1 & Hh1 & Hmi1 & Hs1 & _)
         (Hy2 & Hm2 & Hd2 & Hh2 & Hmi2 & Hs2 & _) H.
  assert (Hdim : forall y m, Py.days_in_month y m <= 31).
  { intros y m. unfold Py.days_in_month.
    repeat match goal with |- context [if ?c then _ else _] => destruct c end; lia. }
  pose proof (Hdim (Py.year d1) (Py.month d1)).
  pose proof (Hdim (Py.year d2) (Py.month d2)).
  unfold Py.strftime_YmdHMS in H.
  apply digits_app_inv in H as [Hy H].
  apply digits_app_inv in H as [Hm H].
  apply digits_app_inv in H as [Hd H].
  apply digits_app_inv in H as [Hh H].
  apply digits_app_inv in H as [Hmi Hs].
  change (10 ^ Z.of_nat 4) with 10000 in *.
  repeat split;
    (apply (digits_inj 4); [change (10 ^ Z.of_nat 4) with 10000; lia .. | assumption])
    || (apply (digits_inj 2); [change (10 ^ Z.of_nat 2) with 100; lia .. | assumption]).
Qed.

Lemma make_threat_id_inj (d1 d2 : Py.datetime) :
  Py.valid d1 -> Py.valid d2 ->
  make_threat_id d1 = make_threat_id d2 -> same_second d1 d2.
Proof.
  intros H1 H2 H. unfold make_threat_id in H.
  apply prefix_cancel in H. now apply strftime_inj.
Qed.

Lemma same_second_to_seconds (d1 d2 : Py.datetime) :
  same_second d1 d2 -> Py.to_seconds d1 = Py.to_seconds d2.
Proof.
  intros (Hy & Hm & Hd & Hh & Hmi & Hs).
  unfold Py.to_seconds, Py.toordinal. congruence.
Qed.

(** Clock readings at least one second apart get different identifiers. *)
Lemma make_threat_id_apart (d1 d2 : Py.datetime) :
  Py.valid d1 -> Py.valid d2 ->
  1000000 <= Z.abs (Py.to_microseconds d2 - Py.to_microseconds d1) ->
  make_threat_id d1 <> make_threat_id d2.
Proof.
  intros H1 H2 Hgap Heq.
  apply make_threat_id_inj in Heq; [|assumption..].
  apply same_second_to_seconds in Heq.
  destruct H1 as (_ & _ & _ & _ & _ & _ & Hus1).
  destruct H2 as (_ & _ & _ & _ & _ & _ & Hus2).
  unfold Py.to_microseconds in Hgap. rewrite Heq in Hgap. lia.
Qed.

End ThreatIds.

(** ** The classifier *)

Section Classifier.

Variables (now : Py.datetime) (alert : ThreatAlert).

Lemma make_threat_id_nonempty : make_threat_id now <> "".
Proof. unfold make_threat_id. cbn [String.append]. discriminate. Qed.

Lemma summary_nonempty : summary (ada_analyze_threat now alert) <> "".
Proof.
  cbn [summary ada_analyze_threat].
  destruct (alert_type alert); cbn [String.append]; discriminate.
Qed.

Lemma select_actions_cases (category : string) :
  select_actions category =
    if decide (category = "BruteForce") then BruteForce_actions
    else if decide (category = "ImpossibleTravel") then ImpossibleTravel_actions
    else if decide (category = "MalwareDetected") then MalwareDetected_actions
    else [].
Proof.
  unfold select_actions.
  repeat match goal with
  | |- context [String.eqb ?a ?b] =>
      destruct (String.eqb_spec a b); [rewrite decide_True by assumption; try reflexivity
                                      | rewrite decide_False by assumption]
  end.
  reflexivity.
Qed.

(** C3. For every alert the classifier returns an analysis (it is a total
    function: no input makes it fail) whose risk score is 85 when the
    severity is the string High and 60 for any other severity, so always 60
    or 85; whose reasoning trace has exactly 6 entries; and whose identifier
    and summary are nonempty strings. *)
Theorem ada_analyze_threat_shape :
  let a := ada_analyze_threat now alert in
  risk_score a = (if decide (severity alert = "High") then 85 else 60) /\
  (risk_score a = 60 \/ risk_score a = 85) /\
  length (reasoning a) = 6%nat /\
  threat_id a <> "" /\
  summary a <> "".
Proof.
  cbn zeta. split; [|split; [|split; [|split]]].
  - cbn [risk_score ada_analyze_threat].
    destruct (String.eqb_spec (severity alert) "High") as [E|E].
    + now rewrite decide_True.
    + now rewrite decide_False.
  - cbn [risk_score ada_analyze_threat].
    destruct (String.eqb (severity alert) "High"); [now right | now left].
  - reflexivity.
  - apply make_threat_id_nonempty.
  - apply summary_nonempty.
Qed.

(** C4. The recommended actions are chosen by exact comparison of the
    category with three names: the four BruteForce actions, the three
    ImpossibleTravel actions, the four MalwareDetected actions, each in the
    order of the source, and the empty list for every other category; the
    analysis is returned with auto_remediated true in every case, also the
    unrecognized one. *)
Theorem ada_analyze_threat_actions :
  let a := ada_analyze_threat now alert in
  recommended_actions a =
    (if decide (alert_type alert = "BruteForce") then
       [ "Block source IPs in Conditional Access";
         "Enable MFA enforcement for targeted accounts";
         "Increase sign-in risk policy to High";
         "Notify security team via voice alert" ]
     else if decide (alert_type alert = "ImpossibleTravel") then
       [ "Require re-authentication";
         "Enable location-based Conditional Access";
         "Flag session for review" ]
     else if decide (alert_type alert = "MalwareDetected") then
       [ "Isolate affected device";
         "Revoke active sessions";
         "Trigger Defender scan";
         "Alert SOC team" ]
     else []) /\
  auto_remediated a = true.
Proof.
  cbn zeta. split; [|reflexivity].
  cbn [recommended_actions ada_analyze_threat].
  apply select_actions_cases.
Qed.

End Classifier.

(** The unrecognized category of the sample alert: no action, still
    reported as remediated, risk 60 for a severity that is not High. *)
Example port_scan_analysis :
  let a := ada_analyze_threat Samples.t0 Samples.port_scan in
  recommended_actions a = [] /\ auto_remediated a = true /\ risk_score a = 60 /\
  length (reasoning a) = 6%nat.
Proof. vm_compute. repeat split. Qed.

Example brute_force_high_analysis :
  let a := ada_analyze_threat Samples.t0 ThreatAlert_default in
  recommended_actions a = BruteForce_actions /\ risk_score a = 85 /\
  threat_id a = "THR-20240309070542".
Proof. vm_compute. repeat split. Qed.

(** ** The pipeline, step by step *)

Section Pipeline.

Variable cfg : config.

Lemma truthy_str_empty (s : string) : Py.truthy_str s = false <-> s = "".
Proof. destruct s; simpl; split; congruence. Qed.

Lemma truthy_bytes_empty (b : bytes) : Py.truthy_bytes b = false <-> b = [].
Proof. destruct b; simpl; split; congruence. Qed.

(** The adapter, outcome by outcome of the call to the service. *)
Lemma generate_voice_alert_cases (ce : call_env) (analysis : AdaAnalysis)
    (alert : ThreatAlert) (w : World) :
  let req := voice_request cfg (voice_script analysis alert) in
  generate_voice_alert cfg ce analysis alert w =
    if Py.truthy_str (ELEVENLABS_KEY cfg) then
      match post ce req with
      | Responded status body =>
          (Returned (if status =? 200 then body else []), emit (HttpPost req) w)
      | NetworkError => (Raised httpx_NetworkError, emit (HttpPost req) w)
      | TimedOut => (Raised httpx_TimeoutException, emit (HttpPost req) w)
      end
    else (Returned [], w).
Proof.
  cbn zeta. unfold generate_voice_alert.
  destruct (Py.truthy_str (ELEVENLABS_KEY cfg)); cbn [negb]; [|reflexivity].
  unfold mbind, M_bind, client_post.
  destruct (post ce _) as [status body| |]; cbn [fst snd]; try reflexivity.
  now destruct (status =? 200).
Qed.

(** The handler, outcome by outcome of the call to the service. *)
Lemma process_threat_cases (ce : call_env) (alert : ThreatAlert) (w : World) :
  let a := ada_analyze_threat (now ce) alert in
  let req := voice_request cfg (voice_script a alert) in
  let w1 := logged ce alert w in
  let w2 := emit (HttpPost req) w1 in
  process_threat cfg ce alert w =
    if Py.truthy_str (ELEVENLABS_KEY cfg) then
      match post ce req with
      | Responded status body =>
          if (status =? 200) && Py.truthy_bytes body then
            (Returned {| resp_analysis := a;
                         voice_url := Some ("/api/voice/" +:+ threat_id a) |},
             snd (put_audio (threat_id a) body w2))
          else
            (Returned {| resp_analysis := a; voice_url := None |}, w2)
      | NetworkError => (Raised httpx_NetworkError, w2)
      | TimedOut => (Raised httpx_TimeoutException, w2)
      end
    else (Returned {| resp_analysis := a; voice_url := None |}, w1).
Proof.
  cbn zeta. unfold process_threat, logged.
  unfold mbind at 1. unfold M_bind at 1. cbn [log_append fst snd].
  destruct (Py.truthy_str (ELEVENLABS_KEY cfg)) eqn:Hkey; [|reflexivity].
  unfold mbind at 1. unfold M_bind at 1.
  unfold mbind at 1. unfold M_bind at 1.
  rewrite generate_voice_alert_cases, Hkey.
  destruct (post ce _) as [status body| |]; try reflexivity.
  destruct (status =? 200); cbn [andb]; [|reflexivity].
  destruct body; reflexivity.
Qed.

End Pipeline.

(** ** What one request does to the world *)

(** Splits a goal about [process_threat] into the five ways the handler
    can run: no credential; a 200 response with audio; another response;
    a network error; a timeout. *)
Ltac handler_cases cfg ce :=
  rewrite (process_threat_cases cfg ce); cbn zeta;
  destruct (Py.truthy_str (ELEVENLABS_KEY cfg)) eqn:?;
  [ let status := fresh "status" in
    let body := fresh "body" in
    destruct (post ce _) as [status body| |] eqn:?;
    [ destruct ((status =? 200) && Py.truthy_bytes body) eqn:? | | ]
  | ].

Section Frames.

Variable cfg : config.

Lemma process_threat_log (ce : call_env) (alert : ThreatAlert) (w : World) :
  threat_log (snd (process_threat cfg ce alert w)) =
  threat_log w ++ [incident_record ce alert (ada_analyze_threat (now ce) alert)].
Proof. handler_cases cfg ce; reflexivity. Qed.

Lemma serve_log (rq : request) (w : World) :
  threat_log (serve cfg rq w) = threat_log w ++ logged_by rq.
Proof.
  destruct rq as [ce alert|id|]; cbn [serve logged_by].
  - apply process_threat_log.
  - unfold get_voice_alert, mbind, M_bind, lookup_audio. cbn [fst snd].
    rewrite app_nil_r.
    destruct (app_state w !! voice_key id) as [b|]; [destruct b|]; reflexivity.
  - cbn. now rewrite app_nil_r.
Qed.

Lemma serve_all_snoc (rqs : list request) (rq : request) (w : World) :
  serve_all cfg (rqs ++ [rq]) w = serve cfg rq (serve_all cfg rqs w).
Proof. unfold serve_all. now rewrite foldl_snoc. Qed.

Lemma serve_all_log (rqs : list request) (w : World) :
  threat_log (serve_all cfg rqs w) = threat_log w ++ flat_map logged_by rqs.
Proof.
  induction rqs as [|rq rqs IH] using rev_ind.
  - cbn. now rewrite app_nil_r.
  - rewrite serve_all_snoc, serve_log, IH, flat_map_app. cbn [flat_map].
    now rewrite app_nil_r, app_assoc.
Qed.

Lemma append_all_snoc (rs : list IncidentRecord) (r : IncidentRecord) (w : World) :
  append_all (rs ++ [r]) w = snd (log_append r (append_all rs w)).
Proof. unfold append_all. now rewrite foldl_snoc. Qed.

Lemma append_all_log (rs : list IncidentRecord) (w : World) :
  threat_log (append_all rs w) = threat_log w ++ rs.
Proof.
  induction rs as [|r rs IH] using rev_ind.
  - cbn. now rewrite app_nil_r.
  - rewrite append_all_snoc. cbn [log_append snd emit threat_log].
    now rewrite IH, app_assoc.
Qed.

End Frames.

(** ** The recent window *)

Section Window.

Context {A : Type}.

(** [l[-k:]] is the [k] most recent elements, for a positive [k]. *)
Lemma slice_from_neg (k : nat) (l : list A) :
  Py.slice_from (- Z.of_nat (S k)) l = most_recent (S k) l.
Proof.
  unfold Py.slice_from, most_recent.
  replace (- Z.of_nat (S k) <? 0) with true by (symmetry; apply Z.ltb_lt; lia).
  f_equal. lia.
Qed.

Lemma most_recent_length (k : nat) (l : list A) :
  length (most_recent k l) = Nat.min k (length l).
Proof. unfold most_recent. rewrite length_drop. lia. Qed.

Lemma most_recent_all (k : nat) (l : list A) :
  (length l <= k)%nat -> most_recent k l = l.
Proof.
  intros H. unfold most_recent.
  replace (length l - k)%nat with 0%nat by lia. apply drop_0.
Qed.

(** Position [i] of the window is position [i] counted from the start of
    the last [k] elements. *)
Lemma most_recent_lookup (k i : nat) (l : list A) :
  most_recent k l !! i = l !! (length l - k + i)%nat.
Proof. unfold most_recent. apply lookup_drop. Qed.

Lemma most_recent_snoc (k : nat) (l : list A) (x : A) :
  last (most_recent (S k) (l ++ [x])) = Some x.
Proof.
  unfold most_recent. rewrite length_app. cbn [length].
  rewrite drop_app_le by lia. apply last_snoc.
Qed.

End Window.

Lemma get_threats_window (w : World) :
  get_threats w = (Returned (most_recent 50 (threat_log w)), w).
Proof.
  unfold get_threats. do 2 f_equal.
  exact (slice_from_neg 49 (threat_log w)).
Qed.

(** ** The incident log *)

(** C1, as the claim states it, fails: fifty-one alerts posted to a fresh
    process leave fifty-one records in [threat_log], the oldest one still
    at its head. *)
Lemma threat_log_exceeds_cap :
  let w := serve_all Samples.no_key (Samples.burst 51) initial_world in
  length (threat_log w) = 51%nat /\
  ~ (length (threat_log w) <= 50)%nat /\
  threat_log w !! 0%nat = head (flat_map logged_by (Samples.burst 51)).
Proof.
  cbn zeta. rewrite serve_all_log. cbn [threat_log initial_world app].
  assert (H : length (flat_map logged_by (Samples.burst 51)) = 51%nat)
    by (vm_compute; reflexivity).
  rewrite H. split; [reflexivity|]. split; [lia|].
  now destruct (flat_map logged_by (Samples.burst 51)).
Qed.

(** C1 (amended). The stored log keeps every record ever appended, in
    arrival order: after any sequence of appends, and after any sequence of
    requests, it is the old log followed by all the new records, so its
    length grows by one per append and has no bound. The limit of 50 is
    applied when the log is read: [get_threats] returns the 50 most recent
    records of the stored log, at most 50 of them, and leaves the log as it
    is. *)
Theorem threat_log_keeps_every_record
    (cfg : config) (rqs : list request) (rs : list IncidentRecord) (w : World) :
  threat_log (append_all rs w) = threat_log w ++ rs /\
  length (threat_log (append_all rs w)) = (length (threat_log w) + length rs)%nat /\
  threat_log (serve_all cfg rqs w) = threat_log w ++ flat_map logged_by rqs /\
  exists window,
    get_threats (append_all rs w) = (Returned window, append_all rs w) /\
    window = most_recent 50 (threat_log w ++ rs) /\
    (length window <= 50)%nat.
Proof.
  split; [apply append_all_log|].
  split; [now rewrite append_all_log, length_app|].
  split; [apply serve_all_log|].
  exists (most_recent 50 (threat_log w ++ rs)).
  rewrite get_threats_window, append_all_log.
  split; [reflexivity|]. split; [reflexivity|].
  rewrite most_recent_length. lia.
Qed.

(** C5. After any sequence of appends to the log of a fresh process,
    [get_threats] returns the at most 50 most recent records, oldest first:
    position [i] of the answer is position [i] of the last 50 appended; the
    same holds when the records are those logged by a sequence of requests. When
    60 records were appended the answer is exactly the records 11 to 60, in
    order, 50 of them, and (the records being pairwise different) none of
    the first 10. *)
Theorem get_threats_recent_window (rs : list IncidentRecord) :
  let w := append_all rs initial_world in
  exists window,
    get_threats w = (Returned window, w) /\
    (forall cfg rqs,
       flat_map logged_by rqs = rs ->
       get_threats (serve_all cfg rqs initial_world) =
         (Returned window, serve_all cfg rqs initial_world)) /\
    window = most_recent 50 rs /\
    length window = Nat.min 50 (length rs) /\
    (forall i : nat, window !! i = rs !! (length rs - 50 + i)%nat) /\
    (length rs = 60%nat ->
       window = drop 10 rs /\ length window = 50%nat /\
       (NoDup rs -> forall r, r ∈ take 10 rs -> r ∉ window)).
Proof.
  cbn zeta. exists (most_recent 50 rs).
  rewrite get_threats_window, append_all_log. cbn [threat_log initial_world app].
  split; [reflexivity|]. split.
  { intros cfg rqs <-. rewrite get_threats_window, serve_all_log. reflexivity. }
  split; [reflexivity|].
  split; [apply most_recent_length|].
  split; [intros i; apply most_recent_lookup|].
  intros H60. unfold most_recent. rewrite H60. cbn [Nat.sub].
  split; [reflexivity|]. split; [rewrite length_drop; lia|].
  intros Hnd r Hr. rewrite <- (take_drop 10 rs) in Hnd.
  apply NoDup_app in Hnd as (_ & Hdisj & _). now apply Hdisj.
Qed.

Lemma sixty_records_NoDup : NoDup Samples.sixty_records.
Proof.
  apply (NoDup_fmap_1 r_timestamp).
  compute_done.
Qed.

Lemma get_threats_recent_window_witness :
  exists window,
    get_threats (append_all Samples.sixty_records initial_world) =
      (Returned window, append_all Samples.sixty_records initial_world) /\
    get_threats (serve_all Samples.with_key (Samples.burst 60) initial_world) =
      (Returned window,
       serve_all Samples.with_key (Samples.burst 60) initial_world) /\
    window = drop 10 Samples.sixty_records /\
    length window = 50%nat /\
    forall r, r ∈ take 10 Samples.sixty_records -> r ∉ window.
Proof.
  destruct (get_threats_recent_window Samples.sixty_records)
    as (window & Hget & Hserve & _ & _ & _ & H60).
  destruct (H60 eq_refl) as (Hwin & Hlen & Hold).
  exists window. split; [exact Hget|].
  split; [apply Hserve; reflexivity|].
  repeat split; try assumption.
  apply Hold, sixty_records_NoDup.
Defined.

(** ** Incident identifiers *)

Lemma process_threat_analysis (cfg : config) (ce : call_env)
    (alert : ThreatAlert) (w : World) (resp : ThreatResponse) :
  fst (process_threat cfg ce alert w) = Returned resp ->
  resp_analysis resp = ada_analyze_threat (now ce) alert.
Proof.
  handler_cases cfg ce; cbn [fst]; intros H;
    try discriminate; now injection H as <-.
Qed.

(** C8. Two calls of the handler with the same alert, whose clock readings
    are at least one second apart, give different identifiers: the
    identifier is the prefix THR- followed by the reading printed down to
    the second, the two analyses differ in it, so do the two responses when
    both calls return, and both incidents are kept in the log, one after
    the other (identical alerts are not merged). *)
Theorem threat_ids_distinct_across_seconds
    (cfg : config) (ce1 ce2 : call_env) (alert : ThreatAlert) (w : World) :
  Py.valid (now ce1) -> Py.valid (now ce2) ->
  1000000 <= Z.abs (Py.to_microseconds (now ce2) - Py.to_microseconds (now ce1)) ->
  let a1 := ada_analyze_threat (now ce1) alert in
  let a2 := ada_analyze_threat (now ce2) alert in
  let res1 := process_threat cfg ce1 alert w in
  let res2 := process_threat cfg ce2 alert (snd res1) in
  threat_id a1 = "THR-" +:+ Py.strftime_YmdHMS (now ce1) /\
  threat_id a2 = "THR-" +:+ Py.strftime_YmdHMS (now ce2) /\
  threat_id a1 <> threat_id a2 /\
  (forall r1 r2, fst res1 = Returned r1 -> fst res2 = Returned r2 ->
     threat_id (resp_analysis r1) <> threat_id (resp_analysis r2)) /\
  threat_log (snd res2) =
    threat_log w ++ [incident_record ce1 alert a1; incident_record ce2 alert a2].
Proof.
  intros Hv1 Hv2 Hgap. cbn zeta.
  split; [reflexivity|]. split; [reflexivity|].
  assert (Hne : make_threat_id (now ce1) <> make_threat_id (now ce2))
    by now apply make_threat_id_apart.
  split; [exact Hne|]. split.
  - intros r1 r2 H1 H2.
    apply process_threat_analysis in H1, H2. now rewrite H1, H2.
  - rewrite !process_threat_log, <- app_assoc. reflexivity.
Qed.

Lemma threat_ids_distinct_witness :
  let ce1 := Samples.at_ Samples.t0 Samples.net_ok in
  let ce2 := Samples.at_ Samples.t1 Samples.net_ok in
  let res1 := process_threat Samples.with_key ce1 ThreatAlert_default initial_world in
  let res2 := process_threat Samples.with_key ce2 ThreatAlert_default (snd res1) in
  (exists r1 r2, fst res1 = Returned r1 /\ fst res2 = Returned r2 /\
     threat_id (resp_analysis r1) <> threat_id (resp_analysis r2)) /\
  length (threat_log (snd res2)) = 2%nat.
Proof.
  cbn zeta.
  pose proof (threat_ids_distinct_across_seconds Samples.with_key
    (Samples.at_ Samples.t0 Samples.net_ok) (Samples.at_ Samples.t1 Samples.net_ok)
    ThreatAlert_default initial_world
    ltac:(unfold Py.valid; cbn; lia) ltac:(unfold Py.valid; cbn; lia)) as H.
  cbn zeta in H.
  destruct H as (_ & _ & _ & Hresp & Hlog).
  { vm_compute. discriminate. }
  split.
  - eexists _, _. split; [reflexivity|]. split; [reflexivity|].
    apply Hresp; reflexivity.
  - rewrite Hlog. reflexivity.
Defined.

(** ** Voice synthesis *)

(** C2, as the claim states it, fails: with a credential configured, a
    network error of the call, and likewise a timeout, comes out of
    [generate_voice_alert] and out of [process_threat] as a raised
    exception, not as absent audio. *)
Lemma synthesis_failure_propagates :
  let a := ada_analyze_threat Samples.t0 ThreatAlert_default in
  let down := Samples.at_ Samples.t0 Samples.net_down in
  let slow := Samples.at_ Samples.t0 Samples.net_slow in
  fst (generate_voice_alert Samples.with_key down a ThreatAlert_default initial_world)
    = Raised httpx_NetworkError /\
  fst (process_threat Samples.with_key down ThreatAlert_default initial_world)
    = Raised httpx_NetworkError /\
  fst (generate_voice_alert Samples.with_key slow a ThreatAlert_default initial_world)
    = Raised httpx_TimeoutException /\
  fst (process_threat Samples.with_key slow ThreatAlert_default initial_world)
    = Raised httpx_TimeoutException.
Proof. vm_compute. repeat split. Qed.

(** C2 (amended). With a credential configured, the adapter makes the call
    and, for every analysis and alert, treats every response whose status
    is not 200 (so every non-2xx status) as absent audio: it returns the
    empty bytes object, and the handler then returns normally with no
    voice_url; a 200 response gives back its body. A network error or a
    timeout of the call is not caught: the exception is raised out of the
    adapter and out of the handler. *)
Theorem synthesis_outcomes (cfg : config) (ce : call_env)
    (analysis : AdaAnalysis) (alert : ThreatAlert) (w : World) :
  ELEVENLABS_KEY cfg <> "" ->
  match post ce (voice_request cfg (voice_script analysis alert)) with
  | Responded status body =>
      fst (generate_voice_alert cfg ce analysis alert w) =
        Returned (if status =? 200 then body else [])
  | NetworkError =>
      fst (generate_voice_alert cfg ce analysis alert w) =
        Raised httpx_NetworkError
  | TimedOut =>
      fst (generate_voice_alert cfg ce analysis alert w) =
        Raised httpx_TimeoutException
  end /\
  let a := ada_analyze_threat (now ce) alert in
  match post ce (voice_request cfg (voice_script a alert)) with
  | Responded status body =>
      fst (process_threat cfg ce alert w) =
        Returned {| resp_analysis := a;
                    voice_url :=
                      if (status =? 200) && Py.truthy_bytes body
                      then Some ("/api/voice/" +:+ threat_id a) else None |}
  | NetworkError =>
      fst (process_threat cfg ce alert w) = Raised httpx_NetworkError
  | TimedOut =>
      fst (process_threat cfg ce alert w) = Raised httpx_TimeoutException
  end.
Proof.
  intros Hkey.
  assert (Ht : Py.truthy_str (ELEVENLABS_KEY cfg) = true).
  { destruct (Py.truthy_str (ELEVENLABS_KEY cfg)) eqn:E; [reflexivity|].
    now apply truthy_str_empty in E. }
  split.
  - rewrite generate_voice_alert_cases, Ht. cbn zeta.
    now destruct (post ce _).
  - cbn zeta. rewrite process_threat_cases, Ht. cbn zeta.
    destruct (post ce _) as [status body| |]; [|reflexivity..].
    now destruct ((status =? 200) && Py.truthy_bytes body).
Qed.

Lemma synthesis_outcomes_witness :
  let ce := Samples.at_ Samples.t0 Samples.net_503 in
  let a := ada_analyze_threat Samples.t0 Samples.port_scan in
  fst (generate_voice_alert Samples.with_key ce a Samples.port_scan
         initial_world) = Returned [] /\
  fst (process_threat Samples.with_key ce Samples.port_scan initial_world) =
    Returned {| resp_analysis := a; voice_url := None |}.
Proof.
  cbn zeta.
  assert (Hkey : ELEVENLABS_KEY Samples.with_key <> "") by (simpl; discriminate).
  exact (synthesis_outcomes Samples.with_key
           (Samples.at_ Samples.t0 Samples.net_503)
           (ada_analyze_threat Samples.t0 Samples.port_scan) Samples.port_scan
           initial_world Hkey).
Defined.

(** ** Effects of the handlers *)

Section Effects.

Variable cfg : config.

Lemma get_voice_alert_world (id : string) (w : World) :
  snd (get_voice_alert id w) = w.
Proof.
  unfold get_voice_alert, mbind, M_bind, lookup_audio. cbn [fst snd].
  destruct (app_state w !! voice_key id) as [b|]; [destruct b|]; reflexivity.
Qed.

Lemma serve_read_only (rq : request) (w : World) :
  logged_by rq = [] -> serve cfg rq w = w.
Proof.
  destruct rq as [ce alert|id|]; cbn [logged_by serve].
  - discriminate.
  - intros _. apply get_voice_alert_world.
  - reflexivity.
Qed.

(** The effects of one call of the handler: the log append comes first,
    and it is the only log append. *)
Lemma process_threat_trace (ce : call_env) (alert : ThreatAlert) (w : World) :
  exists rest,
    trace (snd (process_threat cfg ce alert w)) =
      trace w ++
      LogAppend (incident_record ce alert (ada_analyze_threat (now ce) alert))
        :: rest /\
    Forall (fun e => is_log_append e = false) rest.
Proof.
  handler_cases cfg ce; cbn [snd put_audio logged log_append emit trace];
    rewrite <- ?app_assoc; cbn [app]; eexists; (split; [reflexivity|]);
    repeat constructor.
Qed.

Lemma voice_key_inj (id1 id2 : string) : voice_key id1 = voice_key id2 -> id1 = id2.
Proof. apply prefix_cancel. Qed.

Lemma process_threat_audio_traced (ce : call_env) (alert : ThreatAlert) (w : World) :
  audio_traced w -> audio_traced (snd (process_threat cfg ce alert w)).
Proof.
  intros Hinv id blob.
  handler_cases cfg ce; cbn [snd put_audio logged log_append emit trace app_state];
    intros Hlook; rewrite ?elem_of_app.
  - destruct (decide (voice_key (threat_id (ada_analyze_threat (now ce) alert))
                      = voice_key id)) as [Heq|Hne].
    + rewrite Heq, lookup_insert_eq in Hlook. injection Hlook as <-.
      apply voice_key_inj in Heq as <-. right. apply list_elem_of_singleton.
      reflexivity.
    + rewrite lookup_insert_ne in Hlook by assumption.
      do 3 left. now apply Hinv.
  - do 2 left. now apply Hinv.
  - do 2 left. now apply Hinv.
  - do 2 left. now apply Hinv.
  - left. now apply Hinv.
Qed.

Lemma serve_audio_traced (rq : request) (w : World) :
  audio_traced w -> audio_traced (serve cfg rq w).
Proof.
  destruct rq as [ce alert|id|].
  - apply process_threat_audio_traced.
  - now rewrite serve_read_only.
  - now rewrite serve_read_only.
Qed.

Lemma serve_all_audio_traced (rqs : list request) :
  audio_traced (serve_all cfg rqs initial_world).
Proof.
  induction rqs as [|rq rqs IH] using rev_ind.
  - intros id blob. cbn. now rewrite lookup_empty.
  - rewrite serve_all_snoc. now apply serve_audio_traced.
Qed.

Lemma process_threat_no_empty_audio (ce : call_env) (alert : ThreatAlert) (w : World) :
  no_empty_audio w -> no_empty_audio (snd (process_threat cfg ce alert w)).
Proof.
  intros Hinv key.
  handler_cases cfg ce; cbn [snd put_audio logged log_append emit app_state];
    try apply Hinv.
  rewrite lookup_insert. case_decide; [|apply Hinv].
  intros [= ->].
  match goal with
  | Hb : (_ =? 200) && Py.truthy_bytes [] = true |- _ =>
      apply andb_true_iff in Hb as [_ Hb]; discriminate Hb
  end.
Qed.

Lemma serve_all_no_empty_audio (rqs : list request) :
  no_empty_audio (serve_all cfg rqs initial_world).
Proof.
  induction rqs as [|rq rqs IH] using rev_ind.
  - intros key. cbn. now rewrite lookup_empty.
  - rewrite serve_all_snoc. destruct rq as [ce alert|id|].
    + now apply process_threat_no_empty_audio.
    + now rewrite serve_read_only.
    + now rewrite serve_read_only.
Qed.

End Effects.

(** ** Outcomes of the handler *)

(** With a credential configured, a failed call makes the handler raise. *)
Lemma process_threat_raises (cfg : config) (ce : call_env)
    (alert : ThreatAlert) (w : World) (e : exn) :
  ELEVENLABS_KEY cfg <> "" ->
  failed_call
    (post ce (voice_request cfg
                (voice_script (ada_analyze_threat (now ce) alert) alert)))
    = Some e ->
  fst (process_threat cfg ce alert w) = Raised e.
Proof.
  intros Hkey Hfail.
  assert (Ht : Py.truthy_str (ELEVENLABS_KEY cfg) = true).
  { destruct (Py.truthy_str (ELEVENLABS_KEY cfg)) eqn:E; [reflexivity|].
    now apply truthy_str_empty in E. }
  rewrite process_threat_cases, Ht. cbn zeta.
  destruct (post ce _) as [status body| |]; cbn [failed_call] in Hfail;
    try discriminate; now injection Hfail as <-.
Qed.

(** A call of the handler puts no empty blob. *)
Lemma process_threat_puts_nonempty (cfg : config) (ce : call_env)
    (alert : ThreatAlert) (w : World) (id : string) :
  PutAudio id [] ∈ trace (snd (process_threat cfg ce alert w)) ->
  PutAudio id [] ∈ trace w.
Proof.
  handler_cases cfg ce; cbn [snd put_audio logged log_append emit trace];
    rewrite ?elem_of_app, ?list_elem_of_singleton; intros H;
    destruct_or!; try discriminate; try assumption.
  match goal with
  | Heq : PutAudio _ [] = PutAudio _ _ |- _ => injection Heq as _ <-
  end.
  match goal with
  | Hb : (_ =? 200) && Py.truthy_bytes [] = true |- _ =>
      apply andb_true_iff in Hb as [_ Hb]; discriminate Hb
  end.
Qed.

(** ** Claims about the pipeline *)

Lemma process_threat_without_key (cfg : config) (ce : call_env)
    (alert : ThreatAlert) (w : World) :
  ELEVENLABS_KEY cfg = "" ->
  process_threat cfg ce alert w =
    (Returned {| resp_analysis := ada_analyze_threat (now ce) alert;
                 voice_url := None |},
     logged ce alert w).
Proof.
  intros Hkey. rewrite process_threat_cases. cbn zeta. now rewrite Hkey.
Qed.

Lemma serve_all_without_posts (cfg : config) (rqs : list request) :
  ELEVENLABS_KEY cfg = "" ->
  Forall (fun e => is_post e = false) (trace (serve_all cfg rqs initial_world)).
Proof.
  intros Hkey. induction rqs as [|rq rqs IH] using rev_ind.
  - constructor.
  - rewrite serve_all_snoc. destruct rq as [ce alert|id|].
    + cbn [serve]. rewrite process_threat_without_key by assumption.
      cbn [snd logged log_append emit trace].
      apply Forall_app. split; [exact IH | repeat constructor].
    + now rewrite serve_read_only.
    + now rewrite serve_read_only.
Qed.

(** C6. When [ELEVENLABS_KEY] is the empty string, the handler returns,
    for every alert, every clock reading and every behaviour of the
    network, a response with no voice_url; the adapter, if called, returns
    the empty bytes object and leaves the world untouched; the only effect
    of the handler is the log append; and no sequence of requests served by
    a fresh process ever posts to the synthesis service. *)
Theorem no_credential_no_synthesis (cfg : config) :
  ELEVENLABS_KEY cfg = "" ->
  (forall ce alert w,
     exists resp w',
       process_threat cfg ce alert w = (Returned resp, w') /\
       voice_url resp = None /\
       resp_analysis resp = ada_analyze_threat (now ce) alert /\
       trace w' = trace w ++ [LogAppend (incident_record ce alert (resp_analysis resp))] /\
       app_state w' = app_state w) /\
  (forall ce analysis alert w,
     generate_voice_alert cfg ce analysis alert w = (Returned [], w)) /\
  (forall rqs req, HttpPost req ∉ trace (serve_all cfg rqs initial_world)).
Proof.
  intros Hkey. split; [|split].
  - intros ce alert w. eexists _, _.
    split; [now apply process_threat_without_key|].
    repeat split.
  - intros ce analysis alert w.
    rewrite generate_voice_alert_cases. cbn zeta. now rewrite Hkey.
  - intros rqs req Hin.
    pose proof (serve_all_without_posts cfg rqs Hkey) as Hall.
    rewrite Forall_forall in Hall. apply Hall in Hin. discriminate Hin.
Qed.

Lemma no_credential_no_synthesis_witness :
  (exists resp w',
     process_threat Samples.no_key (Samples.at_ Samples.t0 Samples.net_ok)
       Samples.port_scan initial_world = (Returned resp, w') /\
     voice_url resp = None /\
     forall req, HttpPost req ∉ trace w').
Proof.
  destruct (no_credential_no_synthesis Samples.no_key eq_refl) as (Hpt & _ & Hposts).
  destruct (Hpt (Samples.at_ Samples.t0 Samples.net_ok) Samples.port_scan
              initial_world) as (resp & w' & Hrun & Hurl & _).
  exists resp, w'. repeat split; try assumption.
  intros req.
  specialize (Hposts [PostThreat (Samples.at_ Samples.t0 Samples.net_ok)
                        Samples.port_scan] req).
  cbn [serve_all foldl serve] in Hposts. now rewrite Hrun in Hposts.
Defined.

(** C7. In a process that served any sequence of requests since it
    started, asking for the audio of an identifier under which no blob was
    ever stored (no [PutAudio] for it among the effects so far) is answered
    with the JSON error reply Voice not found, status 404: a normal return
    of the handler, not an exception, and not an audio payload. *)
Theorem get_voice_alert_never_stored
    (cfg : config) (rqs : list request) (id : string) :
  let w := serve_all cfg rqs initial_world in
  (forall blob, PutAudio id blob ∉ trace w) ->
  get_voice_alert id w = (Returned voice_not_found, w) /\
  voice_not_found = JSONResponse [("error", "Voice not found")] 404 /\
  reply_status voice_not_found = 404.
Proof.
  cbn zeta. intros Hnever. split; [|split; reflexivity].
  pose proof (serve_all_audio_traced cfg rqs id) as Hinv.
  unfold get_voice_alert, mbind, M_bind, lookup_audio. cbn [fst snd].
  destruct (app_state _ !! voice_key id) as [blob|] eqn:Hlook; [|reflexivity].
  exfalso. apply (Hnever blob). now apply Hinv.
Qed.

Lemma get_voice_alert_never_stored_witness :
  let w := serve_all Samples.with_key
             [PostThreat (Samples.at_ Samples.t0 Samples.net_ok) ThreatAlert_default;
              PostThreat (Samples.at_ Samples.t1 Samples.net_503) Samples.port_scan]
             initial_world in
  get_voice_alert "THR-20240309070543" w = (Returned voice_not_found, w) /\
  exists content,
    get_voice_alert "THR-20240309070542" w = (Returned (Response content "audio/mpeg"), w).
Proof.
  cbn zeta. split.
  - apply (get_voice_alert_never_stored Samples.with_key
             [PostThreat (Samples.at_ Samples.t0 Samples.net_ok) ThreatAlert_default;
              PostThreat (Samples.at_ Samples.t1 Samples.net_503) Samples.port_scan]
             "THR-20240309070543").
    intros blob Hin. apply list_elem_of_In in Hin. vm_compute in Hin.
    repeat destruct Hin as [Hin|Hin]; try discriminate Hin. exact Hin.
  - eexists. reflexivity.
Defined.

(** C9. The handler appends the incident to the log before it attempts
    voice synthesis: whatever the call to the service does, and so also when
    it raises, the world the handler leaves behind has the incident as the
    last entry of the log, the log append is the first effect of the call
    (any post to the service comes after it), and the recent window returns
    the incident as its newest entry. With a credential configured, a
    failing call makes the handler raise, and the log is changed all the
    same: nothing undoes the append. *)
Theorem log_append_survives_synthesis
    (cfg : config) (ce : call_env) (alert : ThreatAlert) (w : World) :
  let a := ada_analyze_threat (now ce) alert in
  let r := incident_record ce alert a in
  let res := process_threat cfg ce alert w in
  threat_log (snd res) = threat_log w ++ [r] /\
  (exists rest,
     trace (snd res) = trace w ++ LogAppend r :: rest /\
     Forall (fun e => is_log_append e = false) rest) /\
  (exists window,
     get_threats (snd res) = (Returned window, snd res) /\
     last window = Some r) /\
  (ELEVENLABS_KEY cfg <> "" ->
   forall e,
     failed_call (post ce (voice_request cfg (voice_script a alert))) = Some e ->
     fst res = Raised e /\ threat_log (snd res) = threat_log w ++ [r]).
Proof.
  cbn zeta. split; [apply process_threat_log|].
  split; [apply process_threat_trace|]. split.
  - eexists. split; [apply get_threats_window|].
    rewrite process_threat_log. apply most_recent_snoc.
  - intros Hkey e Hfail. split; [|apply process_threat_log].
    now apply process_threat_raises.
Qed.

Lemma log_append_survives_synthesis_witness :
  let ce := Samples.at_ Samples.t0 Samples.net_down in
  let r := incident_record ce Samples.port_scan
             (ada_analyze_threat Samples.t0 Samples.port_scan) in
  let res := process_threat Samples.with_key ce Samples.port_scan initial_world in
  fst res = Raised httpx_NetworkError /\ threat_log (snd res) = [r].
Proof.
  cbn zeta.
  destruct (log_append_survives_synthesis Samples.with_key
              (Samples.at_ Samples.t0 Samples.net_down) Samples.port_scan
              initial_world) as (_ & _ & _ & Hfail).
  apply Hfail; [simpl; discriminate | reflexivity].
Defined.

(** C10. For the retrieval handler an empty stored blob is the same as no
    blob: it answers Voice not found, 404, when the value under the key is
    the empty bytes object, exactly as when the key is missing, and returns
    the audio only for a nonempty value. The handler of alerts never stores
    an empty blob: a call adds no [PutAudio] of the empty bytes object and
    keeps [app.state] free of empty values, so a fresh process never holds
    one. *)
Theorem empty_audio_is_not_found :
  (forall w id,
     app_state w !! voice_key id = Some [] ->
     get_voice_alert id w = (Returned voice_not_found, w)) /\
  (forall w id,
     app_state w !! voice_key id = None ->
     get_voice_alert id w = (Returned voice_not_found, w)) /\
  (forall w id blob,
     app_state w !! voice_key id = Some blob -> blob <> [] ->
     get_voice_alert id w = (Returned (Response blob "audio/mpeg"), w)) /\
  (forall cfg ce alert w id,
     PutAudio id [] ∈ trace (snd (process_threat cfg ce alert w)) ->
     PutAudio id [] ∈ trace w) /\
  (forall cfg ce alert w,
     no_empty_audio w -> no_empty_audio (snd (process_threat cfg ce alert w))) /\
  (forall cfg rqs, no_empty_audio (serve_all cfg rqs initial_world)).
Proof.
  split; [|split; [|split; [|split; [|split]]]].
  - intros w id H. unfold get_voice_alert, mbind, M_bind, lookup_audio.
    cbn [fst snd]. now rewrite H.
  - intros w id H. unfold get_voice_alert, mbind, M_bind, lookup_audio.
    cbn [fst snd]. now rewrite H.
  - intros w id blob H Hne. unfold get_voice_alert, mbind, M_bind, lookup_audio.
    cbn [fst snd]. rewrite H. now destruct blob.
  - intros cfg ce alert w id. apply process_threat_puts_nonempty.
  - intros cfg ce alert w. apply process_threat_no_empty_audio.
  - intros cfg rqs. apply serve_all_no_empty_audio.
Qed.

Lemma empty_audio_is_not_found_witness :
  let id := "THR-20240309070542" in
  let ce := Samples.at_ Samples.t0 Samples.net_ok in
  let stored := snd (process_threat Samples.with_key ce ThreatAlert_default
                       initial_world) in
  get_voice_alert id Samples.silent_world =
    (Returned voice_not_found, Samples.silent_world) /\
  get_voice_alert id initial_world = (Returned voice_not_found, initial_world) /\
  get_voice_alert id stored =
    (Returned (Response Samples.mp3 "audio/mpeg"), stored) /\
  PutAudio id [] ∈ trace Samples.silent_world /\
  no_empty_audio stored.
Proof.
  cbn zeta.
  destruct empty_audio_is_not_found
    as (Hempty & Hmissing & Hfull & Hput & Hkeep & _).
  split; [apply Hempty; vm_compute; reflexivity|].
  split; [apply Hmissing; vm_compute; reflexivity|].
  split; [apply Hfull; [vm_compute; reflexivity | discriminate]|].
  split.
  - apply (Hput Samples.no_key (Samples.at_ Samples.t0 Samples.net_ok)
             ThreatAlert_default).
    apply list_elem_of_In. vm_compute. now left.
  - apply Hkeep. intros key. cbn. now rewrite lookup_empty.
Defined.

(** ** Further properties: storing and serving audio *)

Lemma key_configured (cfg : config) :
  ELEVENLABS_KEY cfg <> "" -> Py.truthy_str (ELEVENLABS_KEY cfg) = true.
Proof. destruct (ELEVENLABS_KEY cfg); [congruence | reflexivity]. Qed.

Lemma body_nonempty (body : bytes) : body <> [] -> Py.truthy_bytes body = true.
Proof. destruct body; [congruence | reflexivity]. Qed.

(** The retrieval handler as a function of the value under the key. *)
Lemma get_voice_alert_lookup (id : string) (w : World) :
  get_voice_alert id w =
    (Returned match app_state w !! voice_key id with
              | Some (b :: bs) => Response (b :: bs) "audio/mpeg"
              | Some [] | None => voice_not_found
              end, w).
Proof.
  unfold get_voice_alert, mbind, M_bind, lookup_audio. cbn [fst snd].
  destruct (app_state w !! voice_key id) as [[|b bs]|]; reflexivity.
Qed.

Lemma has_audio_lookup (id : string) (w : World) :
  has_audio id w <->
  exists blob, blob <> [] /\ app_state w !! voice_key id = Some blob.
Proof.
  unfold has_audio. split; intros (blob & Hne & H); exists blob; (split; [exact Hne|]).
  - rewrite get_voice_alert_lookup in H.
    destruct (app_state w !! voice_key id) as [[|b bs]|]; cbn in H;
      try discriminate H. now injection H as <-.
  - rewrite get_voice_alert_lookup, H. destruct blob; [congruence | reflexivity].
Qed.

(** The handler when the service answers 200 with a nonempty body. *)
Lemma process_threat_success (cfg : config) (ce : call_env)
    (alert : ThreatAlert) (w : World) (body : bytes) :
  let a := ada_analyze_threat (now ce) alert in
  let req := voice_request cfg (voice_script a alert) in
  ELEVENLABS_KEY cfg <> "" -> post ce req = Responded 200 body -> body <> [] ->
  process_threat cfg ce alert w =
    (Returned {| resp_analysis := a;
                 voice_url := Some ("/api/voice/" +:+ threat_id a) |},
     snd (put_audio (threat_id a) body (emit (HttpPost req) (logged ce alert w)))).
Proof.
  cbn zeta. intros Hkey Hpost Hbody.
  rewrite process_threat_cases. cbn zeta.
  rewrite (key_configured cfg Hkey), Hpost, (body_nonempty body Hbody).
  reflexivity.
Qed.

(** X1. Round trip of the audio store: when the service answers 200 with a
    nonempty body, the handler returns a voice_url made of /api/voice/ and
    the identifier of the returned analysis, and asking the retrieval
    handler for that identifier then returns exactly that body, as
    audio/mpeg. *)
Theorem stored_audio_is_served (cfg : config) (ce : call_env)
    (alert : ThreatAlert) (w : World) (body : bytes) :
  ELEVENLABS_KEY cfg <> "" ->
  post ce (voice_request cfg
             (voice_script (ada_analyze_threat (now ce) alert) alert))
    = Responded 200 body ->
  body <> [] ->
  exists resp w',
    process_threat cfg ce alert w = (Returned resp, w') /\
    voice_url resp = Some ("/api/voice/" +:+ threat_id (resp_analysis resp)) /\
    get_voice_alert (threat_id (resp_analysis resp)) w' =
      (Returned (Response body "audio/mpeg"), w').
Proof.
  intros Hkey Hpost Hbody.
  pose proof (process_threat_success cfg ce alert w body) as Hrun.
  cbn zeta in Hrun. specialize (Hrun Hkey Hpost Hbody).
  eexists _, _. split; [exact Hrun|]. split; [reflexivity|].
  rewrite get_voice_alert_lookup.
  cbn [resp_analysis snd put_audio emit app_state].
  rewrite lookup_insert_eq. destruct body; [congruence | reflexivity].
Qed.

Lemma stored_audio_is_served_witness :
  exists resp w',
    process_threat Samples.with_key (Samples.at_ Samples.t0 Samples.net_ok)
      Samples.port_scan initial_world = (Returned resp, w') /\
    voice_url resp = Some "/api/voice/THR-20240309070542" /\
    get_voice_alert "THR-20240309070542" w' =
      (Returned (Response Samples.mp3 "audio/mpeg"), w').
Proof.
  destruct (stored_audio_is_served Samples.with_key
              (Samples.at_ Samples.t0 Samples.net_ok) Samples.port_scan
              initial_world Samples.mp3)
    as (resp & w' & Hrun & Hurl & Hget);
    [simpl; discriminate | reflexivity | discriminate |].
  exists resp, w'. split; [exact Hrun|].
  assert (Hid : threat_id (resp_analysis resp) = "THR-20240309070542").
  { apply (f_equal fst) in Hrun. cbn [fst] in Hrun.
    apply process_threat_analysis in Hrun. rewrite Hrun. reflexivity. }
  rewrite Hid in Hurl, Hget. split; [exact Hurl | exact Hget].
Defined.

(** ** Further properties: identifiers *)

Lemma same_second_strftime (d1 d2 : Py.datetime) :
  same_second d1 d2 -> Py.strftime_YmdHMS d1 = Py.strftime_YmdHMS d2.
Proof.
  intros (Hy & Hm & Hd & Hh & Hmi & Hs). unfold Py.strftime_YmdHMS.
  now rewrite Hy, Hm, Hd, Hh, Hmi, Hs.
Qed.

(** X2. Two analyses carry the same identifier exactly when their clock
    readings agree in year, month, day, hour, minute and second, whatever
    the two alerts are: the identifier depends on nothing else. *)
Theorem threat_id_same_second_iff (d1 d2 : Py.datetime) (alert1 alert2 : ThreatAlert) :
  Py.valid d1 -> Py.valid d2 ->
  (threat_id (ada_analyze_threat d1 alert1) =
   threat_id (ada_analyze_threat d2 alert2) <-> same_second d1 d2).
Proof.
  intros Hv1 Hv2. cbn [threat_id ada_analyze_threat]. split.
  - now apply make_threat_id_inj.
  - intros H. unfold make_threat_id. now rewrite (same_second_strftime d1 d2 H).
Qed.

Lemma threat_id_same_second_iff_witness :
  threat_id (ada_analyze_threat Samples.t0 Samples.port_scan) =
  threat_id (ada_analyze_threat MoreSamples.t0_late ThreatAlert_default) /\
  ~ same_second Samples.t0 Samples.t1.
Proof.
  split.
  - apply (threat_id_same_second_iff Samples.t0 MoreSamples.t0_late);
      [unfold Py.valid; cbn; lia .. |].
    repeat split.
  - intros H.
    apply (threat_id_same_second_iff Samples.t0 Samples.t1
             ThreatAlert_default ThreatAlert_default) in H;
      [| unfold Py.valid; cbn; lia ..].
    vm_compute in H. discriminate H.
Defined.

(** X3. Identifiers collide within one second, and the audio store keeps
    one blob per identifier: when two alerts are handled at readings of the
    same second and both get audio, they share one identifier, the audio of
    the first is served after the first call, the audio of the second
    replaces it after the second call, and the log holds both incidents
    under that one identifier. *)
Theorem same_second_audio_overwritten (cfg : config) (ce1 ce2 : call_env)
    (alert1 alert2 : ThreatAlert) (w : World) (body1 body2 : bytes) :
  ELEVENLABS_KEY cfg <> "" ->
  same_second (now ce1) (now ce2) ->
  post ce1 (voice_request cfg
              (voice_script (ada_analyze_threat (now ce1) alert1) alert1))
    = Responded 200 body1 ->
  body1 <> [] ->
  post ce2 (voice_request cfg
              (voice_script (ada_analyze_threat (now ce2) alert2) alert2))
    = Responded 200 body2 ->
  body2 <> [] ->
  let id := threat_id (ada_analyze_threat (now ce1) alert1) in
  let w1 := snd (process_threat cfg ce1 alert1 w) in
  let w2 := snd (process_threat cfg ce2 alert2 w1) in
  get_voice_alert id w1 = (Returned (Response body1 "audio/mpeg"), w1) /\
  get_voice_alert id w2 = (Returned (Response body2 "audio/mpeg"), w2) /\
  exists r1 r2,
    threat_log w2 = threat_log w ++ [r1; r2] /\
    r_alert r1 = alert1 /\ r_alert r2 = alert2 /\
    threat_id (r_analysis r1) = id /\ threat_id (r_analysis r2) = id.
Proof.
  intros Hkey Hsame Hpost1 Hne1 Hpost2 Hne2. cbn zeta.
  assert (Hid : threat_id (ada_analyze_threat (now ce2) alert2) =
                threat_id (ada_analyze_threat (now ce1) alert1)).
  { cbn [threat_id ada_analyze_threat]. unfold make_threat_id.
    now rewrite (same_second_strftime _ _ Hsame). }
  pose proof (process_threat_success cfg ce1 alert1 w body1) as H1.
  cbn zeta in H1. specialize (H1 Hkey Hpost1 Hne1).
  split; [|split].
  - rewrite H1, get_voice_alert_lookup.
    cbn [snd put_audio emit app_state]. rewrite lookup_insert_eq.
    destruct body1; [congruence | reflexivity].
  - pose proof (process_threat_success cfg ce2 alert2
                  (snd (process_threat cfg ce1 alert1 w)) body2) as H2.
    cbn zeta in H2. specialize (H2 Hkey Hpost2 Hne2).
    rewrite H2, get_voice_alert_lookup.
    cbn [snd put_audio emit app_state]. rewrite Hid, lookup_insert_eq.
    destruct body2; [congruence | reflexivity].
  - eexists _, _. rewrite !process_threat_log, <- app_assoc.
    split; [reflexivity|]. repeat split. exact Hid.
Qed.

Lemma same_second_audio_overwritten_witness :
  let ce1 := Samples.at_ Samples.t0 Samples.net_ok in
  let ce2 := Samples.at_ MoreSamples.t0_late MoreSamples.net_ok_b in
  let w1 := snd (process_threat Samples.with_key ce1 ThreatAlert_default
                   initial_world) in
  let w2 := snd (process_threat Samples.with_key ce2 Samples.port_scan w1) in
  get_voice_alert "THR-20240309070542" w1 =
    (Returned (Response Samples.mp3 "audio/mpeg"), w1) /\
  get_voice_alert "THR-20240309070542" w2 =
    (Returned (Response MoreSamples.mp3_b "audio/mpeg"), w2) /\
  length (threat_log w2) = 2%nat.
Proof.
  cbn zeta.
  destruct (same_second_audio_overwritten Samples.with_key
              (Samples.at_ Samples.t0 Samples.net_ok)
              (Samples.at_ MoreSamples.t0_late MoreSamples.net_ok_b)
              ThreatAlert_default Samples.port_scan initial_world
              Samples.mp3 MoreSamples.mp3_b)
    as (Hfirst & Hsecond & r1 & r2 & Hlog & _);
    [simpl; discriminate | repeat split | reflexivity | discriminate
    | reflexivity | discriminate |].
  split; [exact Hfirst|]. split; [exact Hsecond|].
  rewrite Hlog. reflexivity.
Defined.






(** ** Further properties: sequences of requests *)

Lemma serve_all_cons (cfg : config) (rq : request) (rqs : list request) (w : World) :
  serve_all cfg (rq :: rqs) w = serve_all cfg rqs (serve cfg rq w).
Proof. reflexivity. Qed.

(** X5. The two read handlers are transparent: dropping every audio
    retrieval and every log query from a sequence of requests leaves the
    process in the same state (log, audio store and effects) as serving the
    whole sequence. *)
Theorem reads_are_transparent (cfg : config) (rqs : list request) (w : World) :
  serve_all cfg rqs w = serve_all cfg (List.filter posts_alert rqs) w.
Proof.
  revert w. induction rqs as [|rq rqs IH]; intros w; [reflexivity|].
  rewrite serve_all_cons. destruct rq as [ce alert|id|]; cbn [List.filter posts_alert].
  - rewrite serve_all_cons. apply IH.
  - rewrite serve_read_only by reflexivity. apply IH.
  - rewrite serve_read_only by reflexivity. apply IH.
Qed.

Lemma process_threat_keeps_audio (cfg : config) (ce : call_env)
    (alert : ThreatAlert) (w : World) (id : string) :
  has_audio id w -> has_audio id (snd (process_threat cfg ce alert w)).
Proof.
  rewrite !has_audio_lookup. intros (blob & Hne & Hlook).
  handler_cases cfg ce; cbn [snd put_audio logged log_append emit app_state];
    try (exists blob; split; assumption).
  destruct (decide (voice_key (threat_id (ada_analyze_threat (now ce) alert))
                    = voice_key id)) as [Heq|Hneq].
  - exists body. rewrite Heq, lookup_insert_eq. split; [|reflexivity].
    match goal with
    | Hb : (_ =? 200) && Py.truthy_bytes body = true |- _ =>
        apply andb_true_iff in Hb as [_ Hb]
    end.
    intros ->. discriminate.
  - exists blob. rewrite lookup_insert_ne by assumption. now split.
Qed.

(** X6. The audio store never evicts: once the retrieval handler serves
    audio for an identifier, it goes on serving audio for that identifier
    after any further sequence of requests. *)
Theorem audio_is_never_evicted
    (cfg : config) (rqs : list request) (w : World) (id : string) :
  has_audio id w -> has_audio id (serve_all cfg rqs w).
Proof.
  revert w. induction rqs as [|rq rqs IH]; intros w Hw; [exact Hw|].
  rewrite serve_all_cons. apply IH.
  destruct rq as [ce alert|id'|].
  - now apply process_threat_keeps_audio.
  - now rewrite serve_read_only.
  - now rewrite serve_read_only.
Qed.

Lemma audio_is_never_evicted_witness :
  has_audio "THR-20240309070542" MoreSamples.stored_world /\
  has_audio "THR-20240309070542"
    (serve_all Samples.with_key (Samples.burst 3) MoreSamples.stored_world).
Proof.
  assert (H : has_audio "THR-20240309070542" MoreSamples.stored_world).
  { exists Samples.mp3. split; [discriminate | reflexivity]. }
  split; [exact H|].
  exact (audio_is_never_evicted Samples.with_key (Samples.burst 3)
           MoreSamples.stored_world "THR-20240309070542" H).
Defined.



Lemma posts_of_app (tr1 tr2 : list effect) :
  posts_of (tr1 ++ tr2) = posts_of tr1 ++ posts_of tr2.
Proof. apply List.filter_app. Qed.

Lemma process_threat_posts (cfg : config) (ce : call_env)
    (alert : ThreatAlert) (w : World) :
  posts_of (trace (snd (process_threat cfg ce alert w))) =
  posts_of (trace w) ++
  (if Py.truthy_str (ELEVENLABS_KEY cfg) then
     [HttpPost (voice_request cfg
                  (voice_script (ada_analyze_threat (now ce) alert) alert))]
   else []).
Proof.
  handler_cases cfg ce; cbn [snd put_audio logged log_append emit trace];
    rewrite !posts_of_app; cbn; now rewrite ?app_nil_r.
Qed.

(** X8. The synthesis service is called once per alert and never again:
    with a credential configured, a call of the handler adds exactly one
    post, the one for its own voice script, whether the service answers,
    fails or times out (no retry); without a credential it adds none. Over
    a whole run the number of posts is the number of alerts handled, or
    zero. *)
Theorem one_post_per_alert (cfg : config) :
  (forall ce alert w,
     posts_of (trace (snd (process_threat cfg ce alert w))) =
     posts_of (trace w) ++
     (if Py.truthy_str (ELEVENLABS_KEY cfg) then
        [HttpPost (voice_request cfg
                     (voice_script (ada_analyze_threat (now ce) alert) alert))]
      else [])) /\
  (forall rqs,
     length (posts_of (trace (serve_all cfg rqs initial_world))) =
     if Py.truthy_str (ELEVENLABS_KEY cfg)
     then length (List.filter posts_alert rqs) else 0%nat).
Proof.
  split; [apply process_threat_posts|].
  intros rqs. induction rqs as [|rq rqs IH] using rev_ind.
  - now destruct (Py.truthy_str (ELEVENLABS_KEY cfg)).
  - rewrite serve_all_snoc, List.filter_app.
    destruct rq as [ce alert|id|]; cbn [List.filter posts_alert];
      [|rewrite serve_read_only by reflexivity; now rewrite app_nil_r..].
    cbn [serve]. rewrite process_threat_posts, !length_app, IH.
    destruct (Py.truthy_str (ELEVENLABS_KEY cfg)); cbn [length]; lia.
Qed.

(** ** Further properties: the response, the log and the store *)

(** X9. What the handler returns is what it logged: whenever a call
    returns, the newest entry of the log carries the analysis of the
    response, the alert as it was received, and the UTC reading in ISO
    format as its timestamp. *)
Theorem response_matches_log (cfg : config) (ce : call_env)
    (alert : ThreatAlert) (w : World) (resp : ThreatResponse) :
  fst (process_threat cfg ce alert w) = Returned resp ->
  exists r,
    last (threat_log (snd (process_threat cfg ce alert w))) = Some r /\
    r_analysis r = resp_analysis resp /\
    r_alert r = alert /\
    r_timestamp r = Py.isoformat_utc (utcnow ce).
Proof.
  intros Hret. apply process_threat_analysis in Hret.
  eexists. rewrite process_threat_log, last_snoc.
  split; [reflexivity|]. rewrite Hret. repeat split.
Qed.

Lemma response_matches_log_witness :
  let res := process_threat Samples.with_key
               (Samples.at_ Samples.t1 Samples.net_503) Samples.port_scan
               MoreSamples.stored_world in
  exists resp r,
    fst res = Returned resp /\
    last (threat_log (snd res)) = Some r /\
    r_analysis r = resp_analysis resp /\
    r_timestamp r = "2024-03-09T07:05:43.000250+00:00".
Proof.
  cbn zeta. eexists.
  destruct (response_matches_log Samples.with_key
              (Samples.at_ Samples.t1 Samples.net_503) Samples.port_scan
              MoreSamples.stored_world _ eq_refl) as (r & Hlast & Han & _ & Hts).
  exists r. split; [reflexivity|]. split; [exact Hlast|].
  split; [exact Han | exact Hts].
Defined.

(** X10. Handling one more alert slides the recent window by one: if the
    log held fewer than 50 incidents the new incident is added at the end
    of the window, otherwise the oldest entry of the window leaves and the
    new incident enters at the end. *)
Theorem recent_window_slides (cfg : config) (ce : call_env)
    (alert : ThreatAlert) (w : World) :
  let r := incident_record ce alert (ada_analyze_threat (now ce) alert) in
  let w' := snd (process_threat cfg ce alert w) in
  exists old,
    get_threats w = (Returned old, w) /\
    get_threats w' =
      (Returned (if (50 <=? length (threat_log w))%nat
                 then drop 1 old ++ [r] else old ++ [r]), w').
Proof.
  cbn zeta. exists (most_recent 50 (threat_log w)).
  rewrite !get_threats_window, process_threat_log.
  split; [reflexivity|]. do 2 f_equal.
  unfold most_recent. rewrite length_app. cbn [length].
  destruct (Nat.leb_spec 50 (length (threat_log w))) as [Hge|Hlt].
  - rewrite drop_app_le by lia. rewrite drop_drop. do 2 f_equal. lia.
  - replace (length (threat_log w) + 1 - 50)%nat with 0%nat by lia.
    replace (length (threat_log w) - 50)%nat with 0%nat by lia.
    now rewrite !drop_0.
Qed.

(** X11. The audio store changes only together with a voice_url: a call
    that raises, or that returns without a voice_url, leaves the store as
    it was; a call that returns a voice_url has written one nonempty blob,
    under the voice key of the returned identifier, and nothing else. *)
Theorem audio_store_changes_only_with_voice_url (cfg : config) (ce : call_env)
    (alert : ThreatAlert) (w : World) :
  let res := process_threat cfg ce alert w in
  match fst res with
  | Returned resp =>
      match voice_url resp with
      | Some _ =>
          exists body,
            body <> [] /\
            app_state (snd res) =
              <[voice_key (threat_id (resp_analysis resp)) := body]> (app_state w)
      | None => app_state (snd res) = app_state w
      end
  | Raised _ => app_state (snd res) = app_state w
  end.
Proof.
  cbn zeta.
  handler_cases cfg ce;
    cbn [fst snd voice_url resp_analysis put_audio logged log_append emit app_state];
    try reflexivity.
  exists body. split; [|reflexivity].
  match goal with
  | Hb : (_ =? 200) && Py.truthy_bytes body = true |- _ =>
      apply andb_true_iff in Hb as [_ Hb]
  end.
  intros ->. discriminate.
Qed.

(** X12. A failed synthesis can leave stale audio under a shared
    identifier: if audio is already served for the identifier of a new
    incident (an incident of the same second got it) and the service answers
    the new call with a status other than 200, the response carries no
    voice_url, yet the retrieval handler still serves the earlier audio for
    that identifier. *)
Theorem stale_audio_under_shared_identifier (cfg : config) (ce : call_env)
    (alert : ThreatAlert) (w : World) (old : bytes) (status : Z) (body : bytes) :
  let a := ada_analyze_threat (now ce) alert in
  let res := process_threat cfg ce alert w in
  ELEVENLABS_KEY cfg <> "" ->
  get_voice_alert (threat_id a) w = (Returned (Response old "audio/mpeg"), w) ->
  post ce (voice_request cfg (voice_script a alert)) = Responded status body ->
  status <> 200 ->
  fst res = Returned {| resp_analysis := a; voice_url := None |} /\
  get_voice_alert (threat_id a) (snd res) =
    (Returned (Response old "audio/mpeg"), snd res).
Proof.
  cbn zeta. intros Hkey Hold Hpost Hstatus.
  rewrite process_threat_cases. cbn zeta.
  rewrite (key_configured cfg Hkey), Hpost.
  replace (status =? 200) with false by (symmetry; apply Z.eqb_neq; exact Hstatus).
  cbn [andb fst snd]. split; [reflexivity|].
  rewrite get_voice_alert_lookup in Hold |- *.
  cbn [emit logged log_append snd app_state].
  destruct (app_state w !! voice_key _) as [[|b bs]|];
    try discriminate Hold.
  now injection Hold as <-.
Qed.

Lemma stale_audio_under_shared_identifier_witness :
  let ce := Samples.at_ MoreSamples.t0_late Samples.net_503 in
  let res := process_threat Samples.with_key ce Samples.port_scan
               MoreSamples.stored_world in
  (exists resp, fst res = Returned resp /\ voice_url resp = None /\
     threat_id (resp_analysis resp) = "THR-20240309070542") /\
  get_voice_alert "THR-20240309070542" (snd res) =
    (Returned (Response Samples.mp3 "audio/mpeg"), snd res).
Proof.
  cbn zeta.
  destruct (stale_audio_under_shared_identifier Samples.with_key
              (Samples.at_ MoreSamples.t0_late Samples.net_503) Samples.port_scan
              MoreSamples.stored_world Samples.mp3 503 [])
    as (Hres & Hget);
    [simpl; discriminate | reflexivity | reflexivity | lia |].
  split; [|exact Hget].
  eexists. split; [exact Hres|]. split; reflexivity.
Defined.

(** ** Further properties: what the pipeline reads *)

Lemma get_by_lookup {V} (d1 d2 : gmap string V) (key : string) (default : V) :
  d1 !! key = d2 !! key -> Py.get d1 key default = Py.get d2 key default.
Proof. unfold Py.get. now intros ->. Qed.

Lemma voice_script_reads (an1 an2 : AdaAnalysis) (a1 a2 : ThreatAlert) :
  threat_id an1 = threat_id an2 ->
  details a1 !! "attempts" = details a2 !! "attempts" ->
  details a1 !! "origins" = details a2 !! "origins" ->
  voice_script an1 a1 = voice_script an2 a2.
Proof.
  intros Hid Hat Hor. unfold voice_script.
  now rewrite Hid, (get_by_lookup _ _ "attempts" _ Hat),
    (get_by_lookup _ _ "origins" _ Hor).
Qed.

Lemma analysis_reads (now : Py.datetime) (a1 a2 : ThreatAlert) :
  same_read_fields a1 a2 ->
  ada_analyze_threat now a1 = ada_analyze_threat now a2.
Proof.
  intros (Hsrc & Hty & Hsev & Hat & Hor).
  unfold ada_analyze_threat, make_reasoning.
  now rewrite Hsrc, Hty, Hsev, (get_by_lookup _ _ "attempts" _ Hat),
    (get_by_lookup _ _ "origins" _ Hor).
Qed.

(** X13. Of the details of an alert only the keys attempts and origins are
    ever read: two alerts with the same source, category and severity that
    agree on those two keys get the same analysis, the same outcome of the
    handler (response or exception) and the same audio store, whatever else
    their details hold. *)
Theorem unread_details_are_ignored (cfg : config) (ce : call_env)
    (a1 a2 : ThreatAlert) (w : World) :
  same_read_fields a1 a2 ->
  ada_analyze_threat (now ce) a1 = ada_analyze_threat (now ce) a2 /\
  fst (process_threat cfg ce a1 w) = fst (process_threat cfg ce a2 w) /\
  app_state (snd (process_threat cfg ce a1 w)) =
    app_state (snd (process_threat cfg ce a2 w)).
Proof.
  intros Hsame. pose proof (analysis_reads (now ce) a1 a2 Hsame) as Han.
  destruct Hsame as (_ & _ & _ & Hat & Hor).
  assert (Hscript : voice_script (ada_analyze_threat (now ce) a1) a1 =
                    voice_script (ada_analyze_threat (now ce) a2) a2)
    by (apply voice_script_reads; [now rewrite Han | assumption..]).
  split; [exact Han|].
  rewrite !process_threat_cases. cbn zeta. rewrite Hscript, Han.
  destruct (Py.truthy_str (ELEVENLABS_KEY cfg)); [|now split].
  destruct (post ce _) as [status body| |]; [|now split..].
  destruct ((status =? 200) && Py.truthy_bytes body); now split.
Qed.

Lemma unread_details_are_ignored_witness :
  let ce := Samples.at_ Samples.t0 Samples.net_ok in
  MoreSamples.travel <> MoreSamples.travel_bare /\
  ada_analyze_threat Samples.t0 MoreSamples.travel =
    ada_analyze_threat Samples.t0 MoreSamples.travel_bare /\
  fst (process_threat Samples.with_key ce MoreSamples.travel initial_world) =
    fst (process_threat Samples.with_key ce MoreSamples.travel_bare initial_world).
Proof.
  cbn zeta. split.
  - intros H. apply (f_equal (fun a => details a !! "user")) in H.
    vm_compute in H. discriminate H.
  - destruct (unread_details_are_ignored Samples.with_key
                (Samples.at_ Samples.t0 Samples.net_ok)
                MoreSamples.travel MoreSamples.travel_bare initial_world)
      as (Han & Hres & _); [|now split].
    repeat split; vm_compute; reflexivity.
Defined.

(** X14. The request sent to the synthesis service does not depend on the
    category, the severity or the source of the alert: at the same clock
    reading, two alerts that agree on the details attempts and origins make
    the handler post the same requests, so the same script is spoken for
    every kind of alert. *)
Theorem voice_request_ignores_classification (cfg : config) (ce : call_env)
    (a1 a2 : ThreatAlert) (w : World) :
  details a1 !! "attempts" = details a2 !! "attempts" ->
  details a1 !! "origins" = details a2 !! "origins" ->
  posts_of (trace (snd (process_threat cfg ce a1 w))) =
  posts_of (trace (snd (process_threat cfg ce a2 w))).
Proof.
  intros Hat Hor. rewrite !process_threat_posts.
  now rewrite (voice_script_reads (ada_analyze_threat (now ce) a1)
                 (ada_analyze_threat (now ce) a2) a1 a2 eq_refl Hat Hor).
Qed.

Lemma voice_request_ignores_classification_witness :
  let ce := Samples.at_ Samples.t0 Samples.net_ok in
  let malware :=
    {| source := "Defender for Endpoint"; alert_type := "MalwareDetected";
       severity := "Low"; details := ∅ |} in
  posts_of (trace (snd (process_threat Samples.with_key ce ThreatAlert_default
                          initial_world))) =
  posts_of (trace (snd (process_threat Samples.with_key ce malware
                          initial_world))) /\
  length (posts_of (trace (snd (process_threat Samples.with_key ce malware
                                  initial_world)))) = 1%nat.
Proof.
  cbn zeta. split; [|reflexivity].
  apply (voice_request_ignores_classification Samples.with_key
           (Samples.at_ Samples.t0 Samples.net_ok)); reflexivity.
Defined.

(** ** Further properties: the health endpoint *)

(** X15. The health endpoint tells whether alerts will be voiced: it
    always returns, changes nothing, reports operational with the UTC
    reading in ISO format, and its voice_alerts flag is true exactly when a
    credential is configured, which is exactly when the handler of alerts
    posts to the synthesis service (once per call); with the flag false the
    handler returns without a voice_url. *)
Theorem health_reports_synthesis (cfg : config) (utc : Py.datetime)
    (ce : call_env) (alert : ThreatAlert) (w : World) :
  exists h,
    health cfg utc w = (Returned h, w) /\
    Health.status h = "operational" /\
    Health.timestamp h = Py.isoformat_utc utc /\
    (Health.voice_alerts h = true <-> ELEVENLABS_KEY cfg <> "") /\
    length (posts_of (trace (snd (process_threat cfg ce alert w)))) =
      (length (posts_of (trace w)) + if Health.voice_alerts h then 1 else 0)%nat /\
    (Health.voice_alerts h = false ->
     fst (process_threat cfg ce alert w) =
       Returned {| resp_analysis := ada_analyze_threat (now ce) alert;
                   voice_url := None |}).
Proof.
  eexists. split; [reflexivity|]. cbn [Health.status Health.timestamp Health.voice_alerts].
  split; [reflexivity|]. split; [reflexivity|]. split; [|split].
  - split; [|apply key_configured].
    intros Ht Hempty. rewrite Hempty in Ht. discriminate Ht.
  - rewrite process_threat_posts, length_app.
    now destruct (Py.truthy_str (ELEVENLABS_KEY cfg)).
  - intros Hoff. rewrite process_threat_cases. cbn zeta. now rewrite Hoff.
Qed.

Lemma health_reports_synthesis_witness :
  exists h,
    health Samples.no_key Samples.t1 initial_world = (Returned h, initial_world) /\
    Health.voice_alerts h = false /\
    Health.timestamp h = "2024-03-09T07:05:43.000250+00:00" /\
    fst (process_threat Samples.no_key (Samples.at_ Samples.t0 Samples.net_ok)
           Samples.port_scan initial_world) =
      Returned {| resp_analysis := ada_analyze_threat Samples.t0 Samples.port_scan;
                  voice_url := None |}.
Proof.
  destruct (health_reports_synthesis Samples.no_key Samples.t1
              (Samples.at_ Samples.t0 Samples.net_ok) Samples.port_scan
              initial_world) as (h & Hrun & _ & Hts & _ & _ & Hoff).
  exists h.
  assert (Hflag : Health.voice_alerts h = false).
  { apply (f_equal fst) in Hrun. cbn in Hrun. now injection Hrun as <-. }
  split; [exact Hrun|]. split; [exact Hflag|]. split.
  - rewrite Hts. reflexivity.
  - exact (Hoff Hflag).
Defined.
